(** * Request/response mapping of the Alpha Vantage and Finnhub clients

    A shallow embedding of [alphavantage/client.py], [finnhub/client.py] and
    the parts of [config.py] they read.  Python objects that the code can
    mutate (the [params] dictionaries, the client instance, standard output,
    the network) live in an explicit state; exceptions are an explicit
    result; the [requests] library is represented by the behaviour the
    clients rely on ([Session.get], [raise_for_status], [Response.json]). *)

From Stdlib Require Import ZArith String Floats DecimalString Lia.
From stdpp Require Import base option list gmap strings.

Set Warnings "-register-all".
Open Scope string_scope.

(** ** Python values *)

(** The values [json.loads] produces, which are also the values the clients
    store in [params] and hand back to their callers.  JSON [null] is
    Python's [None]: the value a method returns for "no result" and the
    value it returns for a body that is literally [null] are the same. *)
Inductive pyval : Type :=
  | PyNone
  | PyBool (b : bool)
  | PyInt (z : Z)
  | PyFloat (f : float)
  | PyStr (s : string)
  | PyList (l : list pyval)
  | PyDict (m : gmap string pyval).

(** [bool(v)] *)
Definition truthy (v : pyval) : bool :=
  match v with
  | PyNone => false
  | PyBool b => b
  | PyInt z => negb (z =? 0)%Z
  | PyFloat f => negb (PrimFloat.eqb f 0%float)
  | PyStr s => negb (String.eqb s "")
  | PyList l => negb (Nat.eqb (length l) 0)
  | PyDict m => negb (Nat.eqb (size m) 0)
  end.

(** Truthiness of an [Optional[str]] argument. *)
Definition str_truthy (o : option string) : bool :=
  match o with
  | Some s => negb (String.eqb s "")
  | None => false
  end.

(** [str(b).lower()] for a [bool]. *)
Definition str_lower_bool (b : bool) : string :=
  if b then "true" else "false".

(** [str(z)] for an [int]. *)
Definition str_int (z : Z) : string :=
  NilZero.string_of_int (Z.to_int z).

(** [needle in hay] for two [str]: substring test. *)
Fixpoint is_substring (needle hay : string) : bool :=
  if String.prefix needle hay then true
  else match hay with
       | EmptyString => false
       | String _ hay' => is_substring needle hay'
       end.

(** [type(v).__name__] *)
Definition type_name (v : pyval) : string :=
  match v with
  | PyNone => "NoneType"
  | PyBool _ => "bool"
  | PyInt _ => "int"
  | PyFloat _ => "float"
  | PyStr _ => "str"
  | PyList _ => "list"
  | PyDict _ => "dict"
  end.

(** ** Exceptions *)

Inductive transport_error := ConnectionError | Timeout.

(** The exception classes the request path can meet.  [RequestsJSONDecodeError]
    is [requests.exceptions.JSONDecodeError], a subclass of both
    [RequestException] and [json.JSONDecodeError]. *)
Inductive exn_class :=
  | Transport (t : transport_error)
  | HTTPError
  | RequestsJSONDecodeError
  | JSONDecodeError
  | TypeError
  | KeyError
  | ValueError.

Record exn := Exn { exn_class_of : exn_class; exn_msg : string }.

(** [isinstance(e, requests.exceptions.RequestException)] *)
Definition is_RequestException (e : exn) : bool :=
  match exn_class_of e with
  | Transport _ | HTTPError | RequestsJSONDecodeError => true
  | _ => false
  end.

(** [isinstance(e, json.JSONDecodeError)] *)
Definition is_JSONDecodeError (e : exn) : bool :=
  match exn_class_of e with
  | RequestsJSONDecodeError | JSONDecodeError => true
  | _ => false
  end.

Inductive result (A : Type) : Type :=
  | Ok (a : A)
  | Raise (e : exn).
Arguments Ok {A} a.
Arguments Raise {A} e.

(** [k in data] where [k] is a [str] literal. *)
Definition py_in (k : string) (data : pyval) : result bool :=
  match data with
  | PyDict m => Ok (bool_decide (is_Some (m !! k)))
  | PyList l =>
      Ok (existsb (fun x => match x with PyStr s => String.eqb k s | _ => false end) l)
  | PyStr s => Ok (is_substring k s)
  | _ => Raise (Exn TypeError
                  ("argument of type '" ++ type_name data ++ "' is not iterable"))
  end.

(** [data[k]] where [k] is a [str] literal. *)
Definition py_getitem (data : pyval) (k : string) : result pyval :=
  match data with
  | PyDict m =>
      match m !! k with
      | Some v => Ok v
      | None => Raise (Exn KeyError k)
      end
  | PyList _ => Raise (Exn TypeError "list indices must be integers or slices, not str")
  | PyStr _ => Raise (Exn TypeError "string indices must be integers, not 'str'")
  | _ => Raise (Exn TypeError ("'" ++ type_name data ++ "' object is not subscriptable"))
  end.

(** [m.get(k)] on a [dict]. *)
Definition dict_get (m : gmap string pyval) (k : string) : pyval :=
  default PyNone (m !! k).

(** ** State and the exception/state monad *)

(** A line written by [print].  The text of an f-string is its literal
    prefix followed by [str] of a value or of an exception; the rendered
    value is kept as data. *)
Inductive printed :=
  | Line (s : string)
  | LineVal (prefix : string) (v : pyval)
  | LineExn (prefix : string) (e : exn).

(** What [Session.get] puts on the wire. *)
Record request := Request {
  req_url : string;
  req_params : option (gmap string pyval);
  req_headers : gmap string string;
  req_timeout : Z
}.

(** [Response.json()]: the parsed body, or a decode error; [by_requests]
    tells whether the library raises its own [JSONDecodeError] class or the
    standard one. *)
Inductive body :=
  | JsonBody (v : pyval)
  | NotJson (by_requests : bool) (msg : string).

Record Response := { status_code : Z; resp_body : body }.

Inductive http_outcome :=
  | TransportFailure (t : transport_error) (msg : string)
  | Respond (r : Response).

(** References to heap-allocated dictionaries. *)
Definition loc := nat.

Record world := World {
  heap : list (gmap string pyval);
  stdout : list printed;
  sent : list request
}.

(** The state a method of a client of type [C] runs in. *)
Record state (C : Type) := State { self : C; wld : world }.
Arguments State {C} self wld.
Arguments self {C} s.
Arguments wld {C} s.

Definition M (S A : Type) : Type := S -> result A * S.

Definition ret {S A} (a : A) : M S A := fun s => (Ok a, s).

Definition bind {S A B} (m : M S A) (k : A -> M S B) : M S B :=
  fun s =>
    match m s with
    | (Ok a, s') => k a s'
    | (Raise e, s') => (Raise e, s')
    end.

Definition raise {S A} (e : exn) : M S A := fun s => (Raise e, s).

Definition lift_result {S A} (r : result A) : M S A := fun s => (r, s).

(** [try: body  except ... as e: handler e] *)
Definition try_except {S A} (body : M S A) (handler : exn -> M S A) : M S A :=
  fun s =>
    match body s with
    | (Ok a, s') => (Ok a, s')
    | (Raise e, s') => handler e s'
    end.

Declare Scope py_scope.
Delimit Scope py_scope with py.
Notation "x <- m ;; k" := (bind m (fun x => k))
  (at level 100, m at next level, right associativity) : py_scope.
Notation "m ;;; k" := (bind m (fun _ => k))
  (at level 100, right associativity) : py_scope.
Open Scope py_scope.

Definition on_world {C A} (m : M world A) : M (state C) A :=
  fun s => let (r, w) := m (wld s) in (r, State (self s) w).

Definition get_self {C} : M (state C) C := fun s => (Ok (self s), s).

Definition print (p : printed) : M world unit :=
  fun w => (Ok tt, World (heap w) (stdout w ++ [p]) (sent w)).

(** [{...}]: a new dictionary object. *)
Definition new_dict (d : gmap string pyval) : M world loc :=
  fun w => (Ok (length (heap w)), World (heap w ++ [d]) (stdout w) (sent w)).

(** Reading the dictionary behind a reference; a reference that denotes no
    dictionary behaves like any object without item access. *)
Definition deref (p : loc) : M world (gmap string pyval) :=
  fun w =>
    match heap w !! p with
    | Some d => (Ok d, w)
    | None => (Raise (Exn TypeError "object is not a mapping"), w)
    end.

(** [p[k] = v] *)
Definition setitem (p : loc) (k : string) (v : pyval) : M world unit :=
  fun w =>
    match heap w !! p with
    | Some d => (Ok tt, World (<[p := <[k := v]> d]> (heap w)) (stdout w) (sent w))
    | None =>
        (Raise (Exn TypeError "object does not support item assignment"), w)
    end.

(** ** [config.py] *)

(** The attributes [Config.load_from_env] assigns. *)
Record Config := {
  ALPHA_VANTAGE_API_KEY : option string;
  ALPHA_VANTAGE_BASE_URL : string;
  FINNHUB_API_KEY : option string;
  FINNHUB_BASE_URL : string;
  REQUEST_TIMEOUT : Z;
  MAX_RETRIES : Z
}.

Definition set_MAX_RETRIES (n : Z) (c : Config) : Config :=
  {| ALPHA_VANTAGE_API_KEY := ALPHA_VANTAGE_API_KEY c;
     ALPHA_VANTAGE_BASE_URL := ALPHA_VANTAGE_BASE_URL c;
     FINNHUB_API_KEY := FINNHUB_API_KEY c;
     FINNHUB_BASE_URL := FINNHUB_BASE_URL c;
     REQUEST_TIMEOUT := REQUEST_TIMEOUT c;
     MAX_RETRIES := n |}.

Definition get_alpha_vantage_key (config : Config) : M world (option string) :=
  if negb (str_truthy (ALPHA_VANTAGE_API_KEY config)) then
    print (Line "❌ Alpha Vantage API key not configured!") ;;;
    print (Line "💡 Run 'python setup_env.py' to configure your API keys") ;;;
    ret None
  else ret (ALPHA_VANTAGE_API_KEY config).

Definition get_finnhub_key (config : Config) : M world (option string) :=
  if negb (str_truthy (FINNHUB_API_KEY config)) then
    print (Line "❌ Finnhub API key not configured!") ;;;
    print (Line "💡 Run 'python setup_env.py' to configure your API keys") ;;;
    ret None
  else ret (FINNHUB_API_KEY config).

(** ** The [requests] session *)

Record Session := { headers : gmap string string }.

(** [headers.update(new)]: entries of [new] replace those already there. *)
Definition headers_update (new : gmap string string) (s : Session) : Session :=
  {| headers := new ∪ headers s |}.

(** [Response.raise_for_status()]: an [HTTPError] for a client error
    (400..499) or a server error (500..599), nothing otherwise. *)
Definition raise_for_status {S} (r : Response) : M S unit :=
  if ((400 <=? status_code r) && (status_code r <? 500))%Z then
    raise (Exn HTTPError (str_int (status_code r) ++ " Client Error"))
  else if ((500 <=? status_code r) && (status_code r <? 600))%Z then
    raise (Exn HTTPError (str_int (status_code r) ++ " Server Error"))
  else ret tt.

(** [Response.json()] *)
Definition response_json {S} (r : Response) : M S pyval :=
  match resp_body r with
  | JsonBody v => ret v
  | NotJson true msg => raise (Exn RequestsJSONDecodeError msg)
  | NotJson false msg => raise (Exn JSONDecodeError msg)
  end.

Section Requests.

(** The headers a new [requests.Session] starts with, and the remote side:
    what comes back for a request. *)
Variable default_headers : gmap string string.
Variable backend : request -> http_outcome.

(** [requests.Session()] *)
Definition new_session : Session := {| headers := default_headers |}.

(** [session.get(url, params=params, timeout=timeout)]: one GET goes out,
    carrying the dictionary as it is at that moment. *)
Definition session_get (s : Session) (url : string) (params : option loc)
    (timeout : Z) : M world Response :=
  ps <- match params with
        | Some p => d <- deref p ;; ret (Some d)
        | None => ret None
        end ;;
  let r := Request url ps (headers s) timeout in
  (fun w => (Ok tt, World (heap w) (stdout w) (sent w ++ [r]))) ;;;
  match backend r with
  | TransportFailure t msg => raise (Exn (Transport t) msg)
  | Respond resp => ret resp
  end.

End Requests.

(** ** What came back, and what the caller gets *)

(** The line the [except] clauses print for an exception. *)
Definition diagnostic (e : exn) : printed :=
  if is_RequestException e then LineExn "Request error: " e
  else if is_JSONDecodeError e then LineExn "JSON decode error: " e
  else LineExn "Unexpected error: " e.

(** The value a [try] block hands to the caller once its [except] clauses
    have run, with the lines printed on the way. *)
Definition settle (x : result pyval * list printed) : pyval * list printed :=
  match x with
  | (Ok v, out) => (v, out)
  | (Raise e, out) => (PyNone, (out ++ [diagnostic e])%list)
  end.

(** What [raise_for_status] and [json] make of what came back. *)
Definition received (o : http_outcome) : result pyval :=
  match o with
  | TransportFailure t msg => Raise (Exn (Transport t) msg)
  | Respond r =>
      if ((400 <=? status_code r) && (status_code r <? 500))%Z then
        Raise (Exn HTTPError (str_int (status_code r) ++ " Client Error"))
      else if ((500 <=? status_code r) && (status_code r <? 600))%Z then
        Raise (Exn HTTPError (str_int (status_code r) ++ " Server Error"))
      else
        match resp_body r with
        | JsonBody v => Ok v
        | NotJson true msg => Raise (Exn RequestsJSONDecodeError msg)
        | NotJson false msg => Raise (Exn JSONDecodeError msg)
        end
  end.

Definition add_output (w : world) (out : list printed) : world :=
  World (heap w) (stdout w ++ out) (sent w).

Definition add_request (w : world) (r : request) : world :=
  World (heap w) (stdout w) (sent w ++ [r]).

Definition set_heap (w : world) (h : list (gmap string pyval)) : world :=
  World h (stdout w) (sent w).

(** The dictionary a [params] argument denotes in a heap, if it denotes
    one; no argument is no dictionary. *)
Definition params_in (h : list (gmap string pyval)) (params : option loc)
    : option (option (gmap string pyval)) :=
  match params with
  | Some p => Some <$> (h !! p)
  | None => Some None
  end.

Definition transport (o : http_outcome) : result Response :=
  match o with
  | TransportFailure t msg => Raise (Exn (Transport t) msg)
  | Respond resp => Ok resp
  end.

(** [params[k] = arg] has happened or not, as [if arg:] decides. *)
Definition given (k : string) (arg : option string) (d : gmap string pyval)
    : gmap string pyval :=
  match arg with
  | Some a => if str_truthy arg then <[k := PyStr a]> d else d
  | None => d
  end.

(** [if arg: params[k] = arg] for an [Optional[str]] argument. *)
Definition set_if_given {C} (params : loc) (k : string) (arg : option string)
    : M (state C) unit :=
  match arg with
  | Some a =>
      if str_truthy arg then on_world (setitem params k (PyStr a)) else ret tt
  | None => ret tt
  end.

(** ** [alphavantage/client.py] *)

Module AlphaVantage.

Record Client := { api_key : string; base_url : string; session : Session }.

Section WithEnvironment.

Variable config : Config.
Variable default_headers : gmap string string.
Variable backend : request -> http_outcome.

Definition key_required : string :=
  "❌ Alpha Vantage API key is required!
🔧 Setup instructions:
   1. Run: python setup_env.py
   2. Edit .env file with your API key
   3. Get your free key: https://www.alphavantage.co/support/#api-key".

(** [AlphaVantageClient.__init__] *)
Definition __init__ (api_key : option string) : M world Client :=
  k <- (if str_truthy api_key then ret api_key
        else get_alpha_vantage_key config) ;;
  match k with
  | Some key =>
      if negb (str_truthy k) then raise (Exn ValueError key_required)
      else
        ret {| api_key := key;
               base_url := ALPHA_VANTAGE_BASE_URL config;
               session :=
                 headers_update
                   {[ "User-Agent" := "AlphaVantage-Python-Client/1.0" ]}
                   (new_session default_headers) |}
  | None => raise (Exn ValueError key_required)
  end.

(** The three [except] clauses of [_make_request], in order. *)
Definition handler (e : exn) : M (state Client) pyval :=
  if is_RequestException e then
    on_world (print (LineExn "Request error: " e)) ;;; ret PyNone
  else if is_JSONDecodeError e then
    on_world (print (LineExn "JSON decode error: " e)) ;;; ret PyNone
  else
    on_world (print (LineExn "Unexpected error: " e)) ;;; ret PyNone.

(** [AlphaVantageClient._make_request] *)
Definition _make_request (params : loc) : M (state Client) pyval :=
  try_except
    (self <- get_self ;;
     on_world (setitem params "apikey" (PyStr (api_key self))) ;;;
     response <- on_world (session_get backend (session self) (base_url self)
                             (Some params) (REQUEST_TIMEOUT config)) ;;
     raise_for_status response ;;;
     data <- response_json response ;;
     e1 <- lift_result (py_in "Error Message" data) ;;
     if e1 : bool then
       v <- lift_result (py_getitem data "Error Message") ;;
       on_world (print (LineVal "API Error: " v)) ;;;
       ret PyNone
     else
       e2 <- lift_result (py_in "Note" data) ;;
       if e2 : bool then
         v <- lift_result (py_getitem data "Note") ;;
         on_world (print (LineVal "API Note: " v)) ;;;
         ret PyNone
       else
         e3 <- lift_result (py_in "Information" data) ;;
         if e3 : bool then
           v <- lift_result (py_getitem data "Information") ;;
           on_world (print (LineVal "API Info: " v)) ;;;
           ret PyNone
         else ret data)
    handler.

Definition get_intraday_data (symbol interval : string)
    (adjusted extended_hours : bool) (month : option string)
    (outputsize : string) : M (state Client) pyval :=
  params <- on_world (new_dict
    {[ "function" := PyStr "TIME_SERIES_INTRADAY";
       "symbol" := PyStr symbol;
       "interval" := PyStr interval;
       "adjusted" := PyStr (str_lower_bool adjusted);
       "extended_hours" := PyStr (str_lower_bool extended_hours);
       "outputsize" := PyStr outputsize ]}) ;;
  set_if_given params "month" month ;;;
  _make_request params.

Definition get_daily_data (symbol : string) (adjusted : bool)
    (outputsize : string) : M (state Client) pyval :=
  let function :=
    if adjusted then "TIME_SERIES_DAILY_ADJUSTED" else "TIME_SERIES_DAILY" in
  params <- on_world (new_dict
    {[ "function" := PyStr function;
       "symbol" := PyStr symbol;
       "outputsize" := PyStr outputsize ]}) ;;
  _make_request params.

Definition get_weekly_data (symbol : string) (adjusted : bool)
    : M (state Client) pyval :=
  let function :=
    if adjusted then "TIME_SERIES_WEEKLY_ADJUSTED" else "TIME_SERIES_WEEKLY" in
  params <- on_world (new_dict
    {[ "function" := PyStr function; "symbol" := PyStr symbol ]}) ;;
  _make_request params.

Definition get_monthly_data (symbol : string) (adjusted : bool)
    : M (state Client) pyval :=
  let function :=
    if adjusted then "TIME_SERIES_MONTHLY_ADJUSTED" else "TIME_SERIES_MONTHLY" in
  params <- on_world (new_dict
    {[ "function" := PyStr function; "symbol" := PyStr symbol ]}) ;;
  _make_request params.

(** The methods that send a fixed [function] name and a [symbol]. *)
Definition symbol_request (function symbol : string) : M (state Client) pyval :=
  params <- on_world (new_dict
    {[ "function" := PyStr function; "symbol" := PyStr symbol ]}) ;;
  _make_request params.

Definition get_quote (symbol : string) := symbol_request "GLOBAL_QUOTE" symbol.

Definition search_symbol (keywords : string) : M (state Client) pyval :=
  params <- on_world (new_dict
    {[ "function" := PyStr "SYMBOL_SEARCH"; "keywords" := PyStr keywords ]}) ;;
  _make_request params.

Definition get_company_overview (symbol : string) := symbol_request "OVERVIEW" symbol.
Definition get_income_statement (symbol : string) := symbol_request "INCOME_STATEMENT" symbol.
Definition get_balance_sheet (symbol : string) := symbol_request "BALANCE_SHEET" symbol.
Definition get_cash_flow (symbol : string) := symbol_request "CASH_FLOW" symbol.
Definition get_earnings (symbol : string) := symbol_request "EARNINGS" symbol.

Definition get_top_gainers_losers : M (state Client) pyval :=
  params <- on_world (new_dict {[ "function" := PyStr "TOP_GAINERS_LOSERS" ]}) ;;
  _make_request params.

Definition get_news_sentiment (tickers topics time_from time_to : option string)
    (sort : string) (limit : Z) : M (state Client) pyval :=
  params <- on_world (new_dict
    {[ "function" := PyStr "NEWS_SENTIMENT";
       "sort" := PyStr sort;
       "limit" := PyStr (str_int limit) ]}) ;;
  set_if_given params "tickers" tickers ;;;
  set_if_given params "topics" topics ;;;
  set_if_given params "time_from" time_from ;;;
  set_if_given params "time_to" time_to ;;;
  _make_request params.

(** A call of a public method with its arguments. *)
Inductive call :=
  | Call_get_intraday_data (symbol interval : string)
      (adjusted extended_hours : bool) (month : option string) (outputsize : string)
  | Call_get_daily_data (symbol : string) (adjusted : bool) (outputsize : string)
  | Call_get_weekly_data (symbol : string) (adjusted : bool)
  | Call_get_monthly_data (symbol : string) (adjusted : bool)
  | Call_get_quote (symbol : string)
  | Call_search_symbol (keywords : string)
  | Call_get_company_overview (symbol : string)
  | Call_get_income_statement (symbol : string)
  | Call_get_balance_sheet (symbol : string)
  | Call_get_cash_flow (symbol : string)
  | Call_get_earnings (symbol : string)
  | Call_get_top_gainers_losers
  | Call_get_news_sentiment (tickers topics time_from time_to : option string)
      (sort : string) (limit : Z).

Definition invoke (c : call) : M (state Client) pyval :=
  match c with
  | Call_get_intraday_data s i a e m o => get_intraday_data s i a e m o
  | Call_get_daily_data s a o => get_daily_data s a o
  | Call_get_weekly_data s a => get_weekly_data s a
  | Call_get_monthly_data s a => get_monthly_data s a
  | Call_get_quote s => get_quote s
  | Call_search_symbol k => search_symbol k
  | Call_get_company_overview s => get_company_overview s
  | Call_get_income_statement s => get_income_statement s
  | Call_get_balance_sheet s => get_balance_sheet s
  | Call_get_cash_flow s => get_cash_flow s
  | Call_get_earnings s => get_earnings s
  | Call_get_top_gainers_losers => get_top_gainers_losers
  | Call_get_news_sentiment t p f u s l => get_news_sentiment t p f u s l
  end.

(** The dictionary a public method has built when it calls
    [_make_request]. *)
Definition call_params (c : call) : gmap string pyval :=
  match c with
  | Call_get_intraday_data s i a e m o =>
      given "month" m
        {[ "function" := PyStr "TIME_SERIES_INTRADAY";
           "symbol" := PyStr s;
           "interval" := PyStr i;
           "adjusted" := PyStr (str_lower_bool a);
           "extended_hours" := PyStr (str_lower_bool e);
           "outputsize" := PyStr o ]}
  | Call_get_daily_data s a o =>
      {[ "function" :=
           PyStr (if a then "TIME_SERIES_DAILY_ADJUSTED" else "TIME_SERIES_DAILY");
         "symbol" := PyStr s;
         "outputsize" := PyStr o ]}
  | Call_get_weekly_data s a =>
      {[ "function" :=
           PyStr (if a then "TIME_SERIES_WEEKLY_ADJUSTED" else "TIME_SERIES_WEEKLY");
         "symbol" := PyStr s ]}
  | Call_get_monthly_data s a =>
      {[ "function" :=
           PyStr (if a then "TIME_SERIES_MONTHLY_ADJUSTED" else "TIME_SERIES_MONTHLY");
         "symbol" := PyStr s ]}
  | Call_get_quote s => {[ "function" := PyStr "GLOBAL_QUOTE"; "symbol" := PyStr s ]}
  | Call_search_symbol k =>
      {[ "function" := PyStr "SYMBOL_SEARCH"; "keywords" := PyStr k ]}
  | Call_get_company_overview s =>
      {[ "function" := PyStr "OVERVIEW"; "symbol" := PyStr s ]}
  | Call_get_income_statement s =>
      {[ "function" := PyStr "INCOME_STATEMENT"; "symbol" := PyStr s ]}
  | Call_get_balance_sheet s =>
      {[ "function" := PyStr "BALANCE_SHEET"; "symbol" := PyStr s ]}
  | Call_get_cash_flow s => {[ "function" := PyStr "CASH_FLOW"; "symbol" := PyStr s ]}
  | Call_get_earnings s => {[ "function" := PyStr "EARNINGS"; "symbol" := PyStr s ]}
  | Call_get_top_gainers_losers => {[ "function" := PyStr "TOP_GAINERS_LOSERS" ]}
  | Call_get_news_sentiment t p f u s l =>
      given "time_to" u (given "time_from" f (given "topics" p (given "tickers" t
        {[ "function" := PyStr "NEWS_SENTIMENT";
           "sort" := PyStr s;
           "limit" := PyStr (str_int l) ]})))
  end.

(** The GET that [_make_request] issues for a client and the dictionary
    behind [params]. *)
Definition request_of (c : Client) (d : gmap string pyval) : request :=
  Request (base_url c) (Some (<["apikey" := PyStr (api_key c)]> d))
    (headers (session c)) (REQUEST_TIMEOUT config).

(** One branch of the [if]/[elif] chain over the vendor's error keys. *)
Definition vendor_key (prefix key : string) (data : pyval)
    (otherwise : result pyval * list printed) : result pyval * list printed :=
  match py_in key data with
  | Raise e => (Raise e, [])
  | Ok true =>
      match py_getitem data key with
      | Ok v => (Ok PyNone, [LineVal prefix v])
      | Raise e => (Raise e, [])
      end
  | Ok false => otherwise
  end.

Definition inspect (data : pyval) : result pyval * list printed :=
  vendor_key "API Error: " "Error Message" data
    (vendor_key "API Note: " "Note" data
       (vendor_key "API Info: " "Information" data (Ok data, []))).

(** The answer of [_make_request] and the lines it prints, from what came
    back for its GET. *)
Definition answer (o : http_outcome) : pyval * list printed :=
  settle (match received o with
          | Ok data => inspect data
          | Raise e => (Raise e, [])
          end).

End WithEnvironment.

End AlphaVantage.

(** ** [finnhub/client.py] *)

Module Finnhub.

Record Client := { api_key : string; base_url : string; session : Session }.

Section WithEnvironment.

Variable config : Config.
Variable default_headers : gmap string string.
Variable backend : request -> http_outcome.

Definition key_required : string :=
  "❌ Finnhub API key is required!
🔧 Setup instructions:
   1. Run: python setup_env.py
   2. Edit .env file with your API key
   3. Get your free key: https://finnhub.io/register".

(** [FinnhubClient.__init__] *)
Definition __init__ (api_key : option string) : M world Client :=
  k <- (if str_truthy api_key then ret api_key
        else get_finnhub_key config) ;;
  match k with
  | Some key =>
      if negb (str_truthy k) then raise (Exn ValueError key_required)
      else
        ret {| api_key := key;
               base_url := FINNHUB_BASE_URL config;
               session :=
                 headers_update
                   {[ "X-Finnhub-Token" := key;
                      "User-Agent" := "Finnhub-Python-Client/1.0" ]}
                   (new_session default_headers) |}
  | None => raise (Exn ValueError key_required)
  end.

(** The three [except] clauses of [_make_request], in order. *)
Definition handler (e : exn) : M (state Client) pyval :=
  if is_RequestException e then
    on_world (print (LineExn "Request error: " e)) ;;; ret PyNone
  else if is_JSONDecodeError e then
    on_world (print (LineExn "JSON decode error: " e)) ;;; ret PyNone
  else
    on_world (print (LineExn "Unexpected error: " e)) ;;; ret PyNone.

(** [isinstance(data, dict) and data.get('error')], as a condition. *)
Definition is_error_object (data : pyval) : bool :=
  match data with
  | PyDict m => truthy (dict_get m "error")
  | _ => false
  end.

(** [FinnhubClient._make_request] *)
Definition _make_request (endpoint : string) (params : option loc)
    : M (state Client) pyval :=
  try_except
    (self <- get_self ;;
     let url := base_url self ++ "/" ++ endpoint in
     response <- on_world (session_get backend (session self) url params
                             (REQUEST_TIMEOUT config)) ;;
     raise_for_status response ;;;
     data <- response_json response ;;
     if is_error_object data then
       v <- lift_result (py_getitem data "error") ;;
       on_world (print (LineVal "API Error: " v)) ;;;
       ret PyNone
     else ret data)
    handler.

(** The methods that send only a [symbol] to a fixed endpoint. *)
Definition symbol_request (endpoint symbol : string) : M (state Client) pyval :=
  params <- on_world (new_dict {[ "symbol" := PyStr symbol ]}) ;;
  _make_request endpoint (Some params).

Definition get_quote (symbol : string) := symbol_request "quote" symbol.
Definition get_company_profile (symbol : string) := symbol_request "stock/profile2" symbol.

Definition get_candles (symbol resolution : string)
    (from_timestamp to_timestamp : Z) : M (state Client) pyval :=
  params <- on_world (new_dict
    {[ "symbol" := PyStr symbol;
       "resolution" := PyStr resolution;
       "from" := PyInt from_timestamp;
       "to" := PyInt to_timestamp ]}) ;;
  _make_request "stock/candle" (Some params).

Definition get_market_news (category : string) (min_id : Z)
    : M (state Client) pyval :=
  params <- on_world (new_dict
    {[ "category" := PyStr category; "minId" := PyInt min_id ]}) ;;
  _make_request "news" (Some params).

Definition get_company_news (symbol from_date to_date : string)
    : M (state Client) pyval :=
  params <- on_world (new_dict
    {[ "symbol" := PyStr symbol;
       "from" := PyStr from_date;
       "to" := PyStr to_date ]}) ;;
  _make_request "company-news" (Some params).

Definition get_recommendation_trends (symbol : string) :=
  symbol_request "stock/recommendation" symbol.
Definition get_price_target (symbol : string) :=
  symbol_request "stock/price-target" symbol.
Definition get_earnings (symbol : string) :=
  symbol_request "stock/earnings" symbol.
Definition get_financials_reported (symbol : string) :=
  symbol_request "stock/financials-reported" symbol.

Definition get_basic_financials (symbol metric : string)
    : M (state Client) pyval :=
  params <- on_world (new_dict
    {[ "symbol" := PyStr symbol; "metric" := PyStr metric ]}) ;;
  _make_request "stock/metric" (Some params).

Definition get_insider_transactions (symbol : string)
    (from_date to_date : option string) : M (state Client) pyval :=
  params <- on_world (new_dict {[ "symbol" := PyStr symbol ]}) ;;
  set_if_given params "from" from_date ;;;
  set_if_given params "to" to_date ;;;
  _make_request "stock/insider-transactions" (Some params).

Definition get_stock_symbols (exchange : string) : M (state Client) pyval :=
  params <- on_world (new_dict {[ "exchange" := PyStr exchange ]}) ;;
  _make_request "stock/symbol" (Some params).

Definition search_symbol (query : string) : M (state Client) pyval :=
  params <- on_world (new_dict {[ "q" := PyStr query ]}) ;;
  _make_request "search" (Some params).

(** A call of a public method with its arguments. *)
Inductive call :=
  | Call_get_quote (symbol : string)
  | Call_get_company_profile (symbol : string)
  | Call_get_candles (symbol resolution : string) (from_timestamp to_timestamp : Z)
  | Call_get_market_news (category : string) (min_id : Z)
  | Call_get_company_news (symbol from_date to_date : string)
  | Call_get_recommendation_trends (symbol : string)
  | Call_get_price_target (symbol : string)
  | Call_get_earnings (symbol : string)
  | Call_get_financials_reported (symbol : string)
  | Call_get_basic_financials (symbol metric : string)
  | Call_get_insider_transactions (symbol : string) (from_date to_date : option string)
  | Call_get_stock_symbols (exchange : string)
  | Call_search_symbol (query : string).

Definition invoke (c : call) : M (state Client) pyval :=
  match c with
  | Call_get_quote s => get_quote s
  | Call_get_company_profile s => get_company_profile s
  | Call_get_candles s r f t => get_candles s r f t
  | Call_get_market_news c m => get_market_news c m
  | Call_get_company_news s f t => get_company_news s f t
  | Call_get_recommendation_trends s => get_recommendation_trends s
  | Call_get_price_target s => get_price_target s
  | Call_get_earnings s => get_earnings s
  | Call_get_financials_reported s => get_financials_reported s
  | Call_get_basic_financials s m => get_basic_financials s m
  | Call_get_insider_transactions s f t => get_insider_transactions s f t
  | Call_get_stock_symbols e => get_stock_symbols e
  | Call_search_symbol q => search_symbol q
  end.

(** The endpoint and the dictionary a public method has built when it
    calls [_make_request]. *)
Definition call_endpoint (c : call) : string :=
  match c with
  | Call_get_quote _ => "quote"
  | Call_get_company_profile _ => "stock/profile2"
  | Call_get_candles _ _ _ _ => "stock/candle"
  | Call_get_market_news _ _ => "news"
  | Call_get_company_news _ _ _ => "company-news"
  | Call_get_recommendation_trends _ => "stock/recommendation"
  | Call_get_price_target _ => "stock/price-target"
  | Call_get_earnings _ => "stock/earnings"
  | Call_get_financials_reported _ => "stock/financials-reported"
  | Call_get_basic_financials _ _ => "stock/metric"
  | Call_get_insider_transactions _ _ _ => "stock/insider-transactions"
  | Call_get_stock_symbols _ => "stock/symbol"
  | Call_search_symbol _ => "search"
  end.

Definition call_params (c : call) : gmap string pyval :=
  match c with
  | Call_get_quote s | Call_get_company_profile s
  | Call_get_recommendation_trends s | Call_get_price_target s
  | Call_get_earnings s | Call_get_financials_reported s =>
      {[ "symbol" := PyStr s ]}
  | Call_get_candles s r f t =>
      {[ "symbol" := PyStr s; "resolution" := PyStr r;
         "from" := PyInt f; "to" := PyInt t ]}
  | Call_get_market_news c m => {[ "category" := PyStr c; "minId" := PyInt m ]}
  | Call_get_company_news s f t =>
      {[ "symbol" := PyStr s; "from" := PyStr f; "to" := PyStr t ]}
  | Call_get_basic_financials s m => {[ "symbol" := PyStr s; "metric" := PyStr m ]}
  | Call_get_insider_transactions s f t =>
      given "to" t (given "from" f {[ "symbol" := PyStr s ]})
  | Call_get_stock_symbols e => {[ "exchange" := PyStr e ]}
  | Call_search_symbol q => {[ "q" := PyStr q ]}
  end.

(** The GET that [_make_request] issues for a client, an endpoint and the
    dictionary (if any) behind [params]. *)
Definition request_of (c : Client) (endpoint : string)
    (ps : option (gmap string pyval)) : request :=
  Request (base_url c ++ "/" ++ endpoint) ps
    (headers (session c)) (REQUEST_TIMEOUT config).

Definition inspect (data : pyval) : result pyval * list printed :=
  if is_error_object data then
    match py_getitem data "error" with
    | Ok v => (Ok PyNone, [LineVal "API Error: " v])
    | Raise e => (Raise e, [])
    end
  else (Ok data, []).

(** The answer of [_make_request] and the lines it prints, from what came
    back for its GET. *)
Definition answer (o : http_outcome) : pyval * list printed :=
  settle (match received o with
          | Ok data => inspect data
          | Raise e => (Raise e, [])
          end).

End WithEnvironment.

End Finnhub.

(** ** More of [config.py], and [main.check_api_configuration] *)

(** [s * n] for a [str] and a count. *)
Fixpoint str_times (s : string) (n : nat) : string :=
  match n with
  | O => ""
  | S n' => s ++ str_times s n'
  end.

(** The double quote character. *)
Definition dquote : string := String (Ascii.ascii_of_nat 34) EmptyString.

(** [for x in xs: print(...)] *)
Fixpoint print_each (ls : list printed) : M world unit :=
  match ls with
  | [] => ret tt
  | l :: ls' => print l ;;; print_each ls'
  end.

(** [Config.is_configured] *)
Definition is_configured (config : Config) : bool :=
  str_truthy (ALPHA_VANTAGE_API_KEY config)
  && str_truthy (FINNHUB_API_KEY config).



(** [Config.display_config_status] *)
Definition display_config_status (config : Config) : M world unit :=
  print (Line "📊 Current Configuration Status:") ;;;
  print (Line ("   Alpha Vantage API: " ++
               if str_truthy (ALPHA_VANTAGE_API_KEY config)
               then "✅ Configured" else "❌ Missing")) ;;;
  print (Line ("   Finnhub API: " ++
               if str_truthy (FINNHUB_API_KEY config)
               then "✅ Configured" else "❌ Missing")) ;;;
  print (Line ("   Request Timeout: " ++ str_int (REQUEST_TIMEOUT config) ++ "s")) ;;;
  print (Line ("   Max Retries: " ++ str_int (MAX_RETRIES config))) ;;;
  if negb (is_configured config) then
    print (Line "
🔧 To configure missing API keys:") ;;;
    print (Line "   1. Run: python setup_env.py") ;;;
    print (Line "   2. Edit .env file with your actual keys") ;;;
    print (Line "   3. Restart the application")
  else ret tt.

(** [main.check_api_configuration] *)
Definition check_api_configuration (config : Config) : M world bool :=
  print (Line "🔐 Checking API Configuration...") ;;;
  print (Line (str_times "=" 60)) ;;;
  if negb (is_configured config) then
    print (Line "❌ API keys not properly configured!") ;;;
    print (Line "
🔧 Please run the setup:") ;;;
    print (Line "   1. python setup_env.py") ;;;
    print (Line "   2. Edit .env file with your actual API keys") ;;;
    print (Line "   3. Restart this program") ;;;
    print (Line "
📋 You can also check status with:") ;;;
    print (Line ("   python -c " ++ dquote ++
                 "from config import config; config.display_config_status()" ++
                 dquote)) ;;;
    ret false
  else
    display_config_status config ;;;
    print (Line "✅ All API keys configured successfully!") ;;;
    ret true.

(** ** Calls in sequence *)

(** Public method calls made one after the other on the same client, as the
    example scripts make them; the values returned, in order. *)
Fixpoint alpha_invoke_all (config : Config) (backend : request -> http_outcome)
    (cs : list AlphaVantage.call)
    : M (state AlphaVantage.Client) (list pyval) :=
  match cs with
  | [] => ret []
  | c :: cs' =>
      v <- AlphaVantage.invoke config backend c ;;
      vs <- alpha_invoke_all config backend cs' ;;
      ret (v :: vs)
  end.

Fixpoint finnhub_invoke_all (config : Config) (backend : request -> http_outcome)
    (cs : list Finnhub.call) : M (state Finnhub.Client) (list pyval) :=
  match cs with
  | [] => ret []
  | c :: cs' =>
      v <- Finnhub.invoke config backend c ;;
      vs <- finnhub_invoke_all config backend cs' ;;
      ret (v :: vs)
  end.

(** ** The conditions the properties speak of *)

(** An object whose [error] field is present and truthy. *)
Definition error_object (data : pyval) : Prop :=
  exists m v, data = PyDict m /\ m !! "error" = Some v /\ truthy v = true.

(** A parsed value on which [in] is not defined: [null], a boolean, a
    number. *)
Definition not_a_container (data : pyval) : Prop :=
  match data with
  | PyNone | PyBool _ | PyInt _ | PyFloat _ => True
  | _ => False
  end.

(** A transport failure, a client or server error status, or a body that is
    not JSON. *)
Definition is_failure (o : http_outcome) : bool :=
  match o with
  | TransportFailure _ _ => true
  | Respond r =>
      ((400 <=? status_code r) && (status_code r <? 600))%Z
      || match resp_body r with NotJson _ _ => true | JsonBody _ => false end
  end.

(** ** A concrete setting *)

Module Scenario.

Definition config : Config :=
  {| ALPHA_VANTAGE_API_KEY := Some "demo";
     ALPHA_VANTAGE_BASE_URL := "https://www.alphavantage.co/query";
     FINNHUB_API_KEY := Some "sandbox";
     FINNHUB_BASE_URL := "https://finnhub.io/api/v1";
     REQUEST_TIMEOUT := 30;
     MAX_RETRIES := 3 |}.

Definition no_keys : Config :=
  {| ALPHA_VANTAGE_API_KEY := None;
     ALPHA_VANTAGE_BASE_URL := "https://www.alphavantage.co/query";
     FINNHUB_API_KEY := Some "";
     FINNHUB_BASE_URL := "https://finnhub.io/api/v1";
     REQUEST_TIMEOUT := 30;
     MAX_RETRIES := 3 |}.

Definition default_headers : gmap string string :=
  {[ "User-Agent" := "python-requests/2.31.0";
     "Accept-Encoding" := "gzip, deflate";
     "Accept" := "*/*";
     "Connection" := "keep-alive" ]}.

Definition alpha : AlphaVantage.Client :=
  {| AlphaVantage.api_key := "demo";
     AlphaVantage.base_url := "https://www.alphavantage.co/query";
     AlphaVantage.session :=
       headers_update {[ "User-Agent" := "AlphaVantage-Python-Client/1.0" ]}
         (new_session default_headers) |}.

Definition finn : Finnhub.Client :=
  {| Finnhub.api_key := "sandbox";
     Finnhub.base_url := "https://finnhub.io/api/v1";
     Finnhub.session :=
       headers_update
         {[ "X-Finnhub-Token" := "sandbox";
            "User-Agent" := "Finnhub-Python-Client/1.0" ]}
         (new_session default_headers) |}.

(** Nothing allocated, printed or sent yet. *)
Definition quiet : world := World [] [] [].

(** One dictionary on the heap, at reference 0. *)
Definition holding (d : gmap string pyval) : world := World [d] [] [].

Definition quote_params : gmap string pyval :=
  {[ "function" := PyStr "GLOBAL_QUOTE"; "symbol" := PyStr "IBM" ]}.

(** A remote side that answers every request the same way. *)
Definition always (o : http_outcome) : request -> http_outcome := fun _ => o.

Definition json (status : Z) (v : pyval) : http_outcome :=
  Respond {| status_code := status; resp_body := JsonBody v |}.

Definition rate_limited : gmap string pyval :=
  {[ "Note" := PyStr "Thank you for using Alpha Vantage!" ]}.

Definition quote_body : gmap string pyval :=
  {[ "Global Quote" := PyDict {[ "05. price" := PyStr "123.45" ]} ]}.

Definition daily_body : gmap string pyval :=
  {[ "Meta Data" := PyDict {[ "2. Symbol" := PyStr "TSLA" ]};
     "Time Series (Daily)" :=
       PyDict {[ "2024-01-02" := PyDict {[ "4. close" := PyStr "248.42" ]};
                 "2024-01-03" := PyDict {[ "4. close" := PyStr "238.45" ]} ]} ]}.

End Scenario.

(** * Properties *)

Open Scope list_scope.

(** ** What a call of [_make_request] amounts to *)

Lemma session_get_run (backend : request -> http_outcome) (s : Session)
    (url : string) (params : option loc) (timeout : Z) (w : world)
    (ps : option (gmap string pyval)) :
  params_in (heap w) params = Some ps ->
  session_get backend s url params timeout w =
    let r := Request url ps (headers s) timeout in
    (transport (backend r), add_request w r).
Proof.
  intros Hps. unfold session_get, deref, bind, ret, raise.
  destruct params as [p|]; simpl in Hps.
  - destruct (heap w !! p) as [d|]; simplify_eq/=.
    by destruct (backend _).
  - simplify_eq/=. by destruct (backend _).
Qed.

Lemma new_dict_run {C} (d : gmap string pyval) (s : state C) :
  on_world (new_dict d) s =
    (Ok (length (heap (wld s))),
     State (self s) (set_heap (wld s) (heap (wld s) ++ [d]))).
Proof. reflexivity. Qed.

Lemma set_if_given_run {C} (p : loc) (k : string) (arg : option string)
    (d : gmap string pyval) (s : state C) :
  heap (wld s) !! p = Some d ->
  set_if_given p k arg s =
    (Ok tt, State (self s) (set_heap (wld s) (<[p := given k arg d]> (heap (wld s))))).
Proof.
  intros Hp. unfold set_if_given, given.
  destruct arg as [a|]; [destruct (str_truthy (Some a))|].
  - unfold on_world, setitem. by rewrite Hp.
  - unfold ret. rewrite list_insert_id by done. by destruct s as [c []].
  - unfold ret. rewrite list_insert_id by done. by destruct s as [c []].
Qed.

(** A dictionary just built is the last object of the heap; further item
    assignments keep it there. *)
Lemma lookup_fresh (h : list (gmap string pyval)) (d : gmap string pyval) :
  (h ++ [d]) !! length h = Some d.
Proof. by rewrite list_lookup_middle. Qed.

Lemma insert_fresh (h : list (gmap string pyval)) (d d' : gmap string pyval) :
  <[length h := d']> (h ++ [d]) = h ++ [d'].
Proof.
  replace (length h) with (length h + 0) at 1 by lia.
  by rewrite insert_app_r.
Qed.

(** One statement of a method body that builds its dictionary. *)
Ltac step_fresh :=
  unfold bind at 1;
  first
    [ rewrite new_dict_run
    | erewrite set_if_given_run by (simpl; apply lookup_fresh);
      simpl; rewrite insert_fresh ];
  simpl.

Module AlphaVantageFacts.
Import AlphaVantage.

Section WithEnvironment.

Variable config : Config.
Variable backend : request -> http_outcome.

Lemma alpha_handler_run (e : exn) (s : state Client) :
  handler e s = (Ok PyNone, State (self s) (add_output (wld s) [diagnostic e])).
Proof.
  unfold handler, diagnostic.
  destruct (is_RequestException e); [reflexivity|].
  destruct (is_JSONDecodeError e); reflexivity.
Qed.

Lemma alpha_make_request_run (s : state Client) (p : loc) (d : gmap string pyval) :
  heap (wld s) !! p = Some d ->
  _make_request config backend p s =
    let d' := <["apikey" := PyStr (api_key (self s))]> d in
    let r := request_of config (self s) d in
    let a := answer (backend r) in
    (Ok a.1,
     State (self s)
       (add_output (add_request (set_heap (wld s) (<[p := d']> (heap (wld s)))) r)
          a.2)).
Proof.
  intros Hp.
  assert (Hlt : p < length (heap (wld s))) by (by eapply lookup_lt_Some).
  unfold _make_request, try_except, answer, received.
  unfold bind at 1. unfold get_self at 1. simpl.
  unfold bind at 1. unfold on_world at 1, setitem. rewrite Hp. simpl.
  unfold bind at 1. unfold on_world at 1. simpl.
  erewrite session_get_run
    by (simpl; rewrite list_lookup_insert_eq by done; reflexivity).
  simpl. fold (request_of config (self s) d).
  destruct (backend (request_of config (self s) d)) as [t msg|resp]; simpl.
  { rewrite alpha_handler_run. reflexivity. }
  unfold bind at 1. unfold raise_for_status.
  destruct ((400 <=? status_code resp)%Z && (status_code resp <? 500)%Z); simpl.
  { rewrite alpha_handler_run. reflexivity. }
  destruct ((500 <=? status_code resp)%Z && (status_code resp <? 600)%Z); simpl.
  { rewrite alpha_handler_run. reflexivity. }
  unfold bind at 1. unfold response_json.
  destruct (resp_body resp) as [data|[|] msg]; simpl;
    try (rewrite alpha_handler_run; reflexivity).
  unfold bind, on_world.
  unfold inspect, vendor_key, lift_result, print, raise, ret.
  destruct (py_in "Error Message" data) as [[|]|e1]; simpl.
  - destruct (py_getitem data "Error Message"); simpl;
      [reflexivity | rewrite alpha_handler_run; reflexivity].
  - destruct (py_in "Note" data) as [[|]|e2]; simpl.
    + destruct (py_getitem data "Note"); simpl;
        [reflexivity | rewrite alpha_handler_run; reflexivity].
    + destruct (py_in "Information" data) as [[|]|e3]; simpl.
      * destruct (py_getitem data "Information"); simpl;
          [reflexivity | rewrite alpha_handler_run; reflexivity].
      * unfold add_output, add_request, set_heap; simpl.
        by rewrite app_nil_r.
      * rewrite alpha_handler_run; reflexivity.
    + rewrite alpha_handler_run; reflexivity.
  - rewrite alpha_handler_run; reflexivity.
Qed.

(** Without a dictionary behind [params] the item assignment fails, and
    nothing is sent. *)
Lemma alpha_make_request_dangling (s : state Client) (p : loc) :
  heap (wld s) !! p = None ->
  exists e, _make_request config backend p s =
    (Ok PyNone, State (self s) (add_output (wld s) [diagnostic e])).
Proof.
  intros Hp. eexists.
  unfold _make_request, try_except.
  unfold bind at 1. unfold get_self at 1. simpl.
  unfold bind at 1. unfold on_world at 1, setitem.
  rewrite Hp. simpl. rewrite alpha_handler_run. reflexivity.
Qed.

(** A request made for a dictionary that was just built. *)
Lemma alpha_fresh_request_run (c : Client) (w : world)
    (h : list (gmap string pyval)) (d : gmap string pyval) :
  heap w = h ++ [d] ->
  _make_request config backend (length h) (State c w) =
    let r := request_of config c d in
    let a := answer (backend r) in
    (Ok a.1,
     State c
       (World (h ++ [<["apikey" := PyStr (api_key c)]> d])
          (stdout w ++ a.2) (sent w ++ [r]))).
Proof.
  intros Hw.
  rewrite (alpha_make_request_run _ _ d) by (simpl; rewrite Hw; apply lookup_fresh).
  simpl. unfold add_output, add_request, set_heap. simpl.
  by rewrite Hw, insert_fresh.
Qed.

(** Every public method builds [call_params] and makes one request with
    it. *)
Lemma alpha_invoke_run (c : call) (s : state Client) :
  invoke config backend c s =
    let r := request_of config (self s) (call_params c) in
    let a := answer (backend r) in
    (Ok a.1,
     State (self s)
       (World (heap (wld s)
               ++ [<["apikey" := PyStr (api_key (self s))]> (call_params c)])
          (stdout (wld s) ++ a.2) (sent (wld s) ++ [r]))).
Proof.
  destruct c; simpl;
    unfold get_intraday_data, get_daily_data, get_weekly_data,
      get_monthly_data, get_quote, search_symbol, get_company_overview,
      get_income_statement, get_balance_sheet, get_cash_flow, get_earnings,
      get_top_gainers_losers, get_news_sentiment, symbol_request;
    repeat step_fresh;
    by erewrite alpha_fresh_request_run by reflexivity.
Qed.

End WithEnvironment.

End AlphaVantageFacts.

Module FinnhubFacts.
Import Finnhub.

Section WithEnvironment.

Variable config : Config.
Variable backend : request -> http_outcome.

Lemma finnhub_handler_run (e : exn) (s : state Client) :
  handler e s = (Ok PyNone, State (self s) (add_output (wld s) [diagnostic e])).
Proof.
  unfold handler, diagnostic.
  destruct (is_RequestException e); [reflexivity|].
  destruct (is_JSONDecodeError e); reflexivity.
Qed.

Lemma finnhub_make_request_run (s : state Client) (endpoint : string)
    (params : option loc) (ps : option (gmap string pyval)) :
  params_in (heap (wld s)) params = Some ps ->
  _make_request config backend endpoint params s =
    let r := request_of config (self s) endpoint ps in
    let a := answer (backend r) in
    (Ok a.1, State (self s) (add_output (add_request (wld s) r) a.2)).
Proof.
  intros Hps.
  unfold _make_request, try_except, answer, received.
  unfold bind at 1. unfold get_self at 1. simpl.
  unfold bind at 1. unfold on_world at 1.
  erewrite session_get_run by eassumption.
  simpl. fold (request_of config (self s) endpoint ps).
  destruct (backend (request_of config (self s) endpoint ps)) as [t msg|resp]; simpl.
  { rewrite finnhub_handler_run. reflexivity. }
  unfold bind at 1. unfold raise_for_status.
  destruct ((400 <=? status_code resp)%Z && (status_code resp <? 500)%Z); simpl.
  { rewrite finnhub_handler_run. reflexivity. }
  destruct ((500 <=? status_code resp)%Z && (status_code resp <? 600)%Z); simpl.
  { rewrite finnhub_handler_run. reflexivity. }
  unfold bind at 1. unfold response_json.
  destruct (resp_body resp) as [data|[|] msg]; simpl;
    try (rewrite finnhub_handler_run; reflexivity).
  unfold inspect, bind, on_world, lift_result, print, ret.
  destruct (is_error_object data); simpl.
  - destruct (py_getitem data "error"); simpl;
      [reflexivity | rewrite finnhub_handler_run; reflexivity].
  - unfold add_output, add_request; simpl. by rewrite app_nil_r.
Qed.

(** A reference that denotes no dictionary: [Session.get] cannot use it, and
    nothing is sent. *)
Lemma finnhub_make_request_dangling (s : state Client) (endpoint : string) (p : loc) :
  heap (wld s) !! p = None ->
  exists e, _make_request config backend endpoint (Some p) s =
    (Ok PyNone, State (self s) (add_output (wld s) [diagnostic e])).
Proof.
  intros Hp. eexists.
  unfold _make_request, try_except.
  unfold bind at 1. unfold get_self at 1. simpl.
  unfold bind at 1. unfold on_world at 1.
  unfold session_get, deref. unfold bind at 1. unfold bind at 1.
  rewrite Hp. simpl. rewrite finnhub_handler_run. reflexivity.
Qed.

(** A request made for a dictionary that was just built. *)
Lemma finnhub_fresh_request_run (c : Client) (w : world) (endpoint : string)
    (h : list (gmap string pyval)) (d : gmap string pyval) :
  heap w = h ++ [d] ->
  _make_request config backend endpoint (Some (length h)) (State c w) =
    let r := request_of config c endpoint (Some d) in
    let a := answer (backend r) in
    (Ok a.1, State c (World (heap w) (stdout w ++ a.2) (sent w ++ [r]))).
Proof.
  intros Hw.
  rewrite (finnhub_make_request_run _ _ _ (Some d))
    by (simpl; rewrite Hw, lookup_fresh; reflexivity).
  reflexivity.
Qed.

(** Every public method builds [call_params] and makes one request with it
    to [call_endpoint]. *)
Lemma finnhub_invoke_run (c : call) (s : state Client) :
  invoke config backend c s =
    let r := request_of config (self s) (call_endpoint c) (Some (call_params c)) in
    let a := answer (backend r) in
    (Ok a.1,
     State (self s)
       (World (heap (wld s) ++ [call_params c])
          (stdout (wld s) ++ a.2) (sent (wld s) ++ [r]))).
Proof.
  destruct c; simpl;
    unfold get_quote, get_company_profile, get_candles, get_market_news,
      get_company_news, get_recommendation_trends, get_price_target,
      get_earnings, get_financials_reported, get_basic_financials,
      get_insider_transactions, get_stock_symbols, search_symbol,
      symbol_request;
    repeat step_fresh;
    by erewrite finnhub_fresh_request_run by reflexivity.
Qed.

End WithEnvironment.

End FinnhubFacts.

(** ** Responses *)

Lemma received_json (status : Z) (v : pyval) :
  (status < 400 \/ 600 <= status)%Z ->
  received (Respond {| status_code := status; resp_body := JsonBody v |}) = Ok v.
Proof.
  intros Hs. unfold received. simpl.
  destruct (400 <=? status)%Z eqn:E1, (status <? 500)%Z eqn:E2,
    (500 <=? status)%Z eqn:E3, (status <? 600)%Z eqn:E4; simpl; try reflexivity; lia.
Qed.

Lemma py_in_dict (k : string) (m : gmap string pyval) :
  py_in k (PyDict m) = Ok (match m !! k with Some _ => true | None => false end).
Proof.
  simpl. f_equal. destruct (m !! k) eqn:E.
  - apply bool_decide_eq_true. by eexists.
  - apply bool_decide_eq_false. by intros [? ?].
Qed.

Lemma inspect_dict_error (m : gmap string pyval) :
  is_Some (m !! "Error Message") \/ is_Some (m !! "Note")
    \/ is_Some (m !! "Information") ->
  (AlphaVantage.inspect (PyDict m)).1 = Ok PyNone.
Proof.
  intros H. unfold AlphaVantage.inspect, AlphaVantage.vendor_key.
  rewrite !py_in_dict. unfold py_getitem.
  destruct (m !! "Error Message") as [v1|]; [reflexivity|].
  destruct (m !! "Note") as [v2|]; [reflexivity|].
  destruct (m !! "Information") as [v3|]; [reflexivity|].
  destruct H as [[? ?]|[[? ?]|[? ?]]]; discriminate.
Qed.

Lemma inspect_dict_clean (m : gmap string pyval) :
  m !! "Error Message" = None -> m !! "Note" = None ->
  m !! "Information" = None ->
  AlphaVantage.inspect (PyDict m) = (Ok (PyDict m), []).
Proof.
  intros H1 H2 H3. unfold AlphaVantage.inspect, AlphaVantage.vendor_key.
  rewrite !py_in_dict. by rewrite H1, H2, H3.
Qed.

Lemma settle_ok (x : result pyval * list printed) (v : pyval) :
  x.1 = Ok v -> (settle x).1 = v.
Proof. destruct x as [[?|?] ?]; simpl; congruence. Qed.

(** C1: when the response has a 2xx status and its body parses to a JSON
    object, Alpha Vantage's [_make_request] returns [None] if the object has
    any of the keys [Error Message], [Note], [Information], and returns the
    parsed object itself otherwise. *)
Theorem C1_vendor_error_keys (config : Config) (backend : request -> http_outcome)
    (s : state AlphaVantage.Client) (p : loc) (d m : gmap string pyval)
    (status : Z) :
  heap (wld s) !! p = Some d ->
  backend (AlphaVantage.request_of config (self s) d) =
    Respond {| status_code := status; resp_body := JsonBody (PyDict m) |} ->
  (200 <= status < 300)%Z ->
  (is_Some (m !! "Error Message") \/ is_Some (m !! "Note")
     \/ is_Some (m !! "Information") ->
   (AlphaVantage._make_request config backend p s).1 = Ok PyNone) /\
  (m !! "Error Message" = None -> m !! "Note" = None ->
   m !! "Information" = None ->
   (AlphaVantage._make_request config backend p s).1 = Ok (PyDict m)).
Proof.
  intros Hp Hb Hs.
  rewrite (AlphaVantageFacts.alpha_make_request_run _ _ _ _ d Hp). simpl.
  unfold AlphaVantage.answer. rewrite Hb, received_json by lia.
  split.
  - intros H. f_equal. apply settle_ok. by apply inspect_dict_error.
  - intros H1 H2 H3. by rewrite inspect_dict_clean.
Qed.

(** A rate-limit note gives [None]; a quote body comes back as it is. *)
Lemma C1_vendor_error_keys_witness :
  (AlphaVantage._make_request Scenario.config
     (Scenario.always (Scenario.json 200 (PyDict Scenario.rate_limited))) 0
     (State Scenario.alpha (Scenario.holding Scenario.quote_params))).1 = Ok PyNone
  /\
  (AlphaVantage._make_request Scenario.config
     (Scenario.always (Scenario.json 200 (PyDict Scenario.quote_body))) 0
     (State Scenario.alpha (Scenario.holding Scenario.quote_params))).1
    = Ok (PyDict Scenario.quote_body).
Proof.
  split.
  - apply (C1_vendor_error_keys Scenario.config _ _ 0 Scenario.quote_params
             Scenario.rate_limited 200); [reflexivity | reflexivity | lia |].
    right; left. exists (PyStr "Thank you for using Alpha Vantage!").
    vm_compute. reflexivity.
  - apply (C1_vendor_error_keys Scenario.config _ _ 0 Scenario.quote_params
             Scenario.quote_body 200); [reflexivity | reflexivity | lia | | |];
      vm_compute; reflexivity.
Defined.

(** C10: when the response has a 2xx status and its body parses to [null], a
    boolean or a number, Alpha Vantage's [_make_request] returns [None]: the
    membership test raises a [TypeError], and the last [except] clause prints
    it as an unexpected error. *)
Theorem C10_scalar_body_returns_none (config : Config)
    (backend : request -> http_outcome) (s : state AlphaVantage.Client)
    (p : loc) (d : gmap string pyval) (status : Z) (data : pyval) :
  heap (wld s) !! p = Some d ->
  backend (AlphaVantage.request_of config (self s) d) =
    Respond {| status_code := status; resp_body := JsonBody data |} ->
  (200 <= status < 300)%Z ->
  not_a_container data ->
  (AlphaVantage._make_request config backend p s).1 = Ok PyNone /\
  exists msg,
    stdout (wld (AlphaVantage._make_request config backend p s).2) =
      stdout (wld s) ++ [LineExn "Unexpected error: " (Exn TypeError msg)].
Proof.
  intros Hp Hb Hs Hd.
  rewrite (AlphaVantageFacts.alpha_make_request_run _ _ _ _ d Hp). simpl.
  unfold AlphaVantage.answer. rewrite Hb, received_json by lia.
  destruct data; try contradiction; simpl; (split; [reflexivity | by eexists]).
Qed.

(** The body [42] gives [None]. *)
Lemma C10_scalar_body_returns_none_witness :
  (AlphaVantage._make_request Scenario.config
     (Scenario.always (Scenario.json 200 (PyInt 42))) 0
     (State Scenario.alpha (Scenario.holding Scenario.quote_params))).1 = Ok PyNone.
Proof.
  apply (C10_scalar_body_returns_none Scenario.config _ _ 0
           Scenario.quote_params 200 (PyInt 42));
    [reflexivity | reflexivity | lia | exact I].
Defined.

(** ** The caller's dictionary *)

(** C8: Alpha Vantage's [_make_request] stores the API key under [apikey] in
    the very dictionary it was given; after the call, whatever came back for
    the request, that dictionary holds the key. *)
Theorem C8_params_mutated_in_place (config : Config)
    (backend : request -> http_outcome) (s : state AlphaVantage.Client)
    (p : loc) (d : gmap string pyval) :
  heap (wld s) !! p = Some d ->
  heap (wld (AlphaVantage._make_request config backend p s).2) !! p =
    Some (<["apikey" := PyStr (AlphaVantage.api_key (self s))]> d).
Proof.
  intros Hp.
  rewrite (AlphaVantageFacts.alpha_make_request_run _ _ _ _ d Hp). simpl.
  apply list_lookup_insert_eq. by eapply lookup_lt_Some.
Qed.

(** After a request that timed out, the caller's dictionary holds the key. *)
Lemma C8_params_mutated_in_place_witness :
  heap (wld (AlphaVantage._make_request Scenario.config
               (Scenario.always (TransportFailure Timeout "Read timed out.")) 0
               (State Scenario.alpha (Scenario.holding Scenario.quote_params))).2)
    !! 0 =
  Some (<["apikey" := PyStr "demo"]> Scenario.quote_params).
Proof.
  apply (C8_params_mutated_in_place Scenario.config _
           (State Scenario.alpha (Scenario.holding Scenario.quote_params)) 0
           Scenario.quote_params).
  reflexivity.
Defined.

(** C2, as stated, fails: a body that is literally [null] parses to [None],
    which Finnhub's [_make_request] returns as it is, although the parsed
    value is not an object with a truthy [error] field. *)
Lemma C2_counterexample :
  ~ (forall (config : Config) (backend : request -> http_outcome)
       (s : state Finnhub.Client) (endpoint : string) (params : option loc)
       (ps : option (gmap string pyval)) (status : Z) (data : pyval),
       params_in (heap (wld s)) params = Some ps ->
       backend (Finnhub.request_of config (self s) endpoint ps) =
         Respond {| status_code := status; resp_body := JsonBody data |} ->
       (200 <= status < 300)%Z ->
       ((Finnhub._make_request config backend endpoint params s).1 = Ok PyNone
        <-> error_object data)).
Proof.
  intros H.
  destruct (H Scenario.config (Scenario.always (Scenario.json 200 PyNone))
              (State Scenario.finn Scenario.quiet) "quote" None None 200%Z PyNone
              eq_refl eq_refl ltac:(lia)) as [Hnone _].
  destruct (Hnone eq_refl) as (m & v & Hm & _). discriminate Hm.
Qed.

Lemma is_error_object_iff (data : pyval) :
  Finnhub.is_error_object data = true <-> error_object data.
Proof.
  unfold error_object. split.
  - destruct data as [| | | | | |m]; simpl; try discriminate.
    unfold dict_get. destruct (m !! "error") as [v|] eqn:E; simpl; [|discriminate].
    intros Hv. by exists m, v.
  - intros (m & v & -> & E & Hv). simpl. unfold dict_get. by rewrite E.
Qed.

Lemma finnhub_inspect_value (data : pyval) :
  (Finnhub.inspect data).1 =
    Ok (if Finnhub.is_error_object data then PyNone else data).
Proof.
  unfold Finnhub.inspect.
  destruct (Finnhub.is_error_object data) eqn:E; [|reflexivity].
  apply is_error_object_iff in E as (m & v & -> & E & _).
  simpl. by rewrite E.
Qed.

(** C2, amended: when the response has a 2xx status and its body parses as
    JSON, Finnhub's [_make_request] returns [None] exactly when the parsed
    value is [null] or an object whose [error] field is present and truthy;
    every parsed value that is not such an object, arrays included, is
    returned as it is. *)
Theorem C2_error_object_or_null (config : Config)
    (backend : request -> http_outcome) (s : state Finnhub.Client)
    (endpoint : string) (params : option loc)
    (ps : option (gmap string pyval)) (status : Z) (data : pyval) :
  params_in (heap (wld s)) params = Some ps ->
  backend (Finnhub.request_of config (self s) endpoint ps) =
    Respond {| status_code := status; resp_body := JsonBody data |} ->
  (200 <= status < 300)%Z ->
  ((Finnhub._make_request config backend endpoint params s).1 = Ok PyNone
   <-> data = PyNone \/ error_object data) /\
  (~ error_object data ->
   (Finnhub._make_request config backend endpoint params s).1 = Ok data).
Proof.
  intros Hps Hb Hs.
  rewrite (FinnhubFacts.finnhub_make_request_run _ _ _ _ _ ps Hps). simpl.
  unfold Finnhub.answer. rewrite Hb, received_json by lia.
  rewrite (settle_ok _ _ (finnhub_inspect_value data)).
  destruct (Finnhub.is_error_object data) eqn:E.
  - apply is_error_object_iff in E. split; [by split; auto | by intros []].
  - assert (Hn : ~ error_object data).
    { intros He. apply is_error_object_iff in He. congruence. }
    split; [|done]. split.
    + intros [= ->]. by left.
    + intros [->|He]; [done | by destruct Hn].
Qed.

(** A news array comes back as it is. *)
Lemma C2_error_object_or_null_witness :
  (Finnhub._make_request Scenario.config
     (Scenario.always
        (Scenario.json 200 (PyList [PyDict {[ "headline" := PyStr "Markets" ]}])))
     "news" (Some 0)
     (State Scenario.finn
        (Scenario.holding {[ "category" := PyStr "general"; "minId" := PyInt 0 ]}))).1
  = Ok (PyList [PyDict {[ "headline" := PyStr "Markets" ]}]).
Proof.
  apply (C2_error_object_or_null Scenario.config _ _ "news" (Some 0)
           (Some {[ "category" := PyStr "general"; "minId" := PyInt 0 ]}) 200);
    [reflexivity | reflexivity | lia |].
  intros (m & v & Hm & _). discriminate Hm.
Defined.

(** ** Failures *)

Lemma failure_raises (o : http_outcome) :
  is_failure o = true -> exists e, received o = Raise e.
Proof.
  destruct o as [t msg|[status b]]; simpl; [by eexists|].
  intros H.
  destruct (400 <=? status)%Z eqn:E1, (status <? 500)%Z eqn:E2; simpl;
    try (by eexists);
    destruct (500 <=? status)%Z eqn:E3, (status <? 600)%Z eqn:E4; simpl;
    try (by eexists); simpl in H;
    try lia; destruct b as [v|[|] msg]; try discriminate; by eexists.
Qed.

(** C4, as stated, fails for the statuses outside 2xx that
    [raise_for_status] lets through: with status 300 and a JSON body, the
    parsed body is returned. *)
Lemma C4_counterexample :
  ~ (forall (config : Config) (backend : request -> http_outcome)
       (s : state AlphaVantage.Client) (p : loc) (d : gmap string pyval)
       (resp : Response),
       heap (wld s) !! p = Some d ->
       backend (AlphaVantage.request_of config (self s) d) = Respond resp ->
       ~ (200 <= status_code resp < 300)%Z ->
       (AlphaVantage._make_request config backend p s).1 = Ok PyNone).
Proof.
  intros H.
  specialize (H Scenario.config
                (Scenario.always (Scenario.json 300 (PyDict Scenario.quote_body)))
                (State Scenario.alpha (Scenario.holding Scenario.quote_params))
                0 Scenario.quote_params
                {| status_code := 300;
                   resp_body := JsonBody (PyDict Scenario.quote_body) |}
                eq_refl eq_refl ltac:(simpl; lia)).
  vm_compute in H. discriminate H.
Qed.

(** C4, amended: for either client, a transport failure, a 4xx or 5xx
    status, or a body that is not JSON makes [_make_request] return [None]
    after printing one diagnostic line; and no call of [_make_request]
    raises. *)
Theorem C4_failures_return_none (config : Config)
    (backend : request -> http_outcome) :
  (forall (s : state AlphaVantage.Client) (p : loc),
     exists v s', AlphaVantage._make_request config backend p s = (Ok v, s')) /\
  (forall (s : state Finnhub.Client) (endpoint : string) (params : option loc),
     exists v s',
       Finnhub._make_request config backend endpoint params s = (Ok v, s')) /\
  (forall (s : state AlphaVantage.Client) (p : loc) (d : gmap string pyval),
     heap (wld s) !! p = Some d ->
     is_failure (backend (AlphaVantage.request_of config (self s) d)) = true ->
     (AlphaVantage._make_request config backend p s).1 = Ok PyNone /\
     exists e,
       stdout (wld (AlphaVantage._make_request config backend p s).2) =
         stdout (wld s) ++ [diagnostic e]) /\
  (forall (s : state Finnhub.Client) (endpoint : string) (params : option loc)
     (ps : option (gmap string pyval)),
     params_in (heap (wld s)) params = Some ps ->
     is_failure (backend (Finnhub.request_of config (self s) endpoint ps)) = true ->
     (Finnhub._make_request config backend endpoint params s).1 = Ok PyNone /\
     exists e,
       stdout (wld (Finnhub._make_request config backend endpoint params s).2) =
         stdout (wld s) ++ [diagnostic e]).
Proof.
  split; [|split; [|split]].
  - intros s p. destruct (heap (wld s) !! p) as [d|] eqn:Hp.
    + rewrite (AlphaVantageFacts.alpha_make_request_run _ _ _ _ d Hp).
      by eexists _, _.
    + destruct (AlphaVantageFacts.alpha_make_request_dangling
                  config backend s p Hp) as [e ->].
      by eexists _, _.
  - intros s endpoint [p|].
    + destruct (heap (wld s) !! p) as [d|] eqn:Hp.
      * rewrite (FinnhubFacts.finnhub_make_request_run _ _ _ _ _ (Some d))
          by (simpl; by rewrite Hp).
        by eexists _, _.
      * destruct (FinnhubFacts.finnhub_make_request_dangling
                    config backend s endpoint p Hp) as [e ->].
        by eexists _, _.
    + rewrite (FinnhubFacts.finnhub_make_request_run _ _ _ _ _ None) by done.
      by eexists _, _.
  - intros s p d Hp Hfail.
    rewrite (AlphaVantageFacts.alpha_make_request_run _ _ _ _ d Hp). simpl.
    unfold AlphaVantage.answer.
    destruct (failure_raises _ Hfail) as [e ->].
    split; [reflexivity | by exists e].
  - intros s endpoint params ps Hps Hfail.
    rewrite (FinnhubFacts.finnhub_make_request_run _ _ _ _ _ ps Hps). simpl.
    unfold Finnhub.answer.
    destruct (failure_raises _ Hfail) as [e ->].
    split; [reflexivity | by exists e].
Qed.

(** A timeout for one client, a body that is not JSON for the other. *)
Lemma C4_failures_return_none_witness :
  (AlphaVantage._make_request Scenario.config
     (Scenario.always (TransportFailure Timeout "Read timed out.")) 0
     (State Scenario.alpha (Scenario.holding Scenario.quote_params))).1 = Ok PyNone
  /\
  (Finnhub._make_request Scenario.config
     (Scenario.always
        (Respond {| status_code := 200;
                    resp_body := NotJson true "Expecting value" |}))
     "quote" None (State Scenario.finn Scenario.quiet)).1 = Ok PyNone.
Proof.
  split.
  - apply (proj1 (proj2 (proj2
             (C4_failures_return_none Scenario.config
                (Scenario.always (TransportFailure Timeout "Read timed out."))))))
      with (d := Scenario.quote_params); reflexivity.
  - apply (proj2 (proj2 (proj2
             (C4_failures_return_none Scenario.config
                (Scenario.always
                   (Respond {| status_code := 200;
                               resp_body := NotJson true "Expecting value" |}))))))
      with (ps := None); reflexivity.
Defined.

(** ** Construction *)

Lemma str_truthy_spec (o : option string) :
  str_truthy o = true <-> exists k, o = Some k /\ k <> "".
Proof.
  destruct o as [[|a k]|]; simpl; split; try discriminate.
  - by intros (k & [= <-] & ?).
  - intros _. by eexists.
  - done.
  - by intros (? & ? & _).
Qed.

Lemma alpha_init_run (config : Config) (default_headers : gmap string string)
    (api_key : option string) (w : world) :
  (exists k, (str_truthy api_key = true /\ api_key = Some k
              \/ str_truthy api_key = false
                 /\ ALPHA_VANTAGE_API_KEY config = Some k) /\ k <> "" /\
     exists c, AlphaVantage.__init__ config default_headers api_key w = (Ok c, w)
               /\ AlphaVantage.api_key c = k)
  \/ (str_truthy api_key = false
      /\ str_truthy (ALPHA_VANTAGE_API_KEY config) = false
      /\ exists w', AlphaVantage.__init__ config default_headers api_key w =
                      (Raise (Exn ValueError AlphaVantage.key_required), w')
                    /\ sent w' = sent w).
Proof.
  unfold AlphaVantage.__init__, get_alpha_vantage_key.
  destruct (str_truthy api_key) eqn:Ha.
  - left. apply str_truthy_spec in Ha as Hk. destruct Hk as (k & -> & Hk).
    exists k. split; [by left|]. split; [done|].
    destruct k as [|a k]; [done|]. by eexists.
  - destruct (str_truthy (ALPHA_VANTAGE_API_KEY config)) eqn:Hc.
    + left. apply str_truthy_spec in Hc as Hk. destruct Hk as (k & Hk & Hne).
      exists k. split; [by right|]. split; [done|].
      rewrite Hk. destruct k as [|a k]; [done|].
      destruct w. by eexists.
    + right. split; [done|]. split; [done|].
      unfold bind, ret, raise, print. simpl. by eexists.
Qed.

Lemma finnhub_init_run (config : Config) (default_headers : gmap string string)
    (api_key : option string) (w : world) :
  (exists k, (str_truthy api_key = true /\ api_key = Some k
              \/ str_truthy api_key = false
                 /\ FINNHUB_API_KEY config = Some k) /\ k <> "" /\
     exists c, Finnhub.__init__ config default_headers api_key w = (Ok c, w)
               /\ Finnhub.api_key c = k)
  \/ (str_truthy api_key = false
      /\ str_truthy (FINNHUB_API_KEY config) = false
      /\ exists w', Finnhub.__init__ config default_headers api_key w =
                      (Raise (Exn ValueError Finnhub.key_required), w')
                    /\ sent w' = sent w).
Proof.
  unfold Finnhub.__init__, get_finnhub_key.
  destruct (str_truthy api_key) eqn:Ha.
  - left. apply str_truthy_spec in Ha as Hk. destruct Hk as (k & -> & Hk).
    exists k. split; [by left|]. split; [done|].
    destruct k as [|a k]; [done|]. by eexists.
  - destruct (str_truthy (FINNHUB_API_KEY config)) eqn:Hc.
    + left. apply str_truthy_spec in Hc as Hk. destruct Hk as (k & Hk & Hne).
      exists k. split; [by right|]. split; [done|].
      rewrite Hk. destruct k as [|a k]; [done|].
      destruct w. by eexists.
    + right. split; [done|]. split; [done|].
      unfold bind, ret, raise, print. simpl. by eexists.
Qed.

(** C3: for either client, when neither the argument nor the configuration
    gives a non-empty API key the constructor raises [ValueError], and it
    does so with nothing sent over the network; a client that was
    constructed holds a non-empty key (and nothing was sent to construct
    it). *)
Theorem C3_constructor_requires_key (config : Config)
    (default_headers : gmap string string) (api_key : option string)
    (w : world) :
  (str_truthy api_key = false ->
   str_truthy (ALPHA_VANTAGE_API_KEY config) = false ->
   exists w',
     AlphaVantage.__init__ config default_headers api_key w =
       (Raise (Exn ValueError AlphaVantage.key_required), w')
     /\ sent w' = sent w) /\
  (forall c w',
     AlphaVantage.__init__ config default_headers api_key w = (Ok c, w') ->
     AlphaVantage.api_key c <> "" /\ sent w' = sent w) /\
  (str_truthy api_key = false ->
   str_truthy (FINNHUB_API_KEY config) = false ->
   exists w',
     Finnhub.__init__ config default_headers api_key w =
       (Raise (Exn ValueError Finnhub.key_required), w')
     /\ sent w' = sent w) /\
  (forall c w',
     Finnhub.__init__ config default_headers api_key w = (Ok c, w') ->
     Finnhub.api_key c <> "" /\ sent w' = sent w).
Proof.
  pose proof (alpha_init_run config default_headers api_key w) as HA.
  pose proof (finnhub_init_run config default_headers api_key w) as HF.
  split; [|split; [|split]].
  - intros Ha Hc.
    destruct HA as [(k & Hsrc & Hne & _)|(_ & _ & Hraise)]; [|done].
    exfalso. destruct Hsrc as [[Ht _]|[_ Hk]]; [congruence|].
    rewrite Hk in Hc. destruct k; [done | discriminate].
  - intros c w' Hrun.
    destruct HA as [(k & _ & Hne & c' & Hok & Hkey)|(_ & _ & w'' & Hr & _)];
      [|congruence].
    rewrite Hok in Hrun. by simplify_eq.
  - intros Ha Hc.
    destruct HF as [(k & Hsrc & Hne & _)|(_ & _ & Hraise)]; [|done].
    exfalso. destruct Hsrc as [[Ht _]|[_ Hk]]; [congruence|].
    rewrite Hk in Hc. destruct k; [done | discriminate].
  - intros c w' Hrun.
    destruct HF as [(k & _ & Hne & c' & Hok & Hkey)|(_ & _ & w'' & Hr & _)];
      [|congruence].
    rewrite Hok in Hrun. by simplify_eq.
Qed.

(** No argument and no configured key: both constructors raise. *)
Lemma C3_constructor_requires_key_witness :
  (exists w',
     AlphaVantage.__init__ Scenario.no_keys Scenario.default_headers None
       Scenario.quiet =
       (Raise (Exn ValueError AlphaVantage.key_required), w')
     /\ sent w' = sent Scenario.quiet)
  /\
  (exists w',
     Finnhub.__init__ Scenario.no_keys Scenario.default_headers None
       Scenario.quiet =
       (Raise (Exn ValueError Finnhub.key_required), w')
     /\ sent w' = sent Scenario.quiet).
Proof.
  split.
  - apply (proj1 (C3_constructor_requires_key Scenario.no_keys
                    Scenario.default_headers None Scenario.quiet));
      reflexivity.
  - apply (proj1 (proj2 (proj2 (C3_constructor_requires_key Scenario.no_keys
                    Scenario.default_headers None Scenario.quiet))));
      reflexivity.
Defined.

(** C9: for either client, the constructor given the empty string as
    [api_key] does what it does given no [api_key]: it takes the configured
    key when that one is non-empty, and raises exactly when the configured
    key is absent or empty. *)
Theorem C9_empty_key_falls_back (config : Config)
    (default_headers : gmap string string) (w : world) :
  (AlphaVantage.__init__ config default_headers (Some "") w =
     AlphaVantage.__init__ config default_headers None w
   /\ (forall k, ALPHA_VANTAGE_API_KEY config = Some k -> k <> "" ->
       exists c,
         AlphaVantage.__init__ config default_headers (Some "") w = (Ok c, w)
         /\ AlphaVantage.api_key c = k)
   /\ ((exists e w',
          AlphaVantage.__init__ config default_headers (Some "") w = (Raise e, w'))
       <-> ALPHA_VANTAGE_API_KEY config = None
           \/ ALPHA_VANTAGE_API_KEY config = Some "")) /\
  (Finnhub.__init__ config default_headers (Some "") w =
     Finnhub.__init__ config default_headers None w
   /\ (forall k, FINNHUB_API_KEY config = Some k -> k <> "" ->
       exists c,
         Finnhub.__init__ config default_headers (Some "") w = (Ok c, w)
         /\ Finnhub.api_key c = k)
   /\ ((exists e w',
          Finnhub.__init__ config default_headers (Some "") w = (Raise e, w'))
       <-> FINNHUB_API_KEY config = None \/ FINNHUB_API_KEY config = Some "")).
Proof.
  split.
  - split; [reflexivity|].
    destruct (alpha_init_run config default_headers (Some "") w)
      as [(k & Hsrc & Hne & c & Hok & Hkey)|(_ & Hc & w' & Hr & _)].
    + destruct Hsrc as [[Ht _]|[_ Hk]]; [discriminate Ht|].
      split.
      * intros k' Hk' _. exists c. rewrite Hk in Hk'. by simplify_eq.
      * split.
        -- intros (e & w' & Hr). congruence.
        -- intros [Hn|He]; rewrite Hk in *; by simplify_eq.
    + split.
      * intros k Hk Hne. rewrite Hk in Hc. destruct k; [done | discriminate].
      * split.
        -- intros _. destruct (ALPHA_VANTAGE_API_KEY config) as [[|a k]|];
             [by right | discriminate | by left].
        -- intros _. by eexists _, _.
  - split; [reflexivity|].
    destruct (finnhub_init_run config default_headers (Some "") w)
      as [(k & Hsrc & Hne & c & Hok & Hkey)|(_ & Hc & w' & Hr & _)].
    + destruct Hsrc as [[Ht _]|[_ Hk]]; [discriminate Ht|].
      split.
      * intros k' Hk' _. exists c. rewrite Hk in Hk'. by simplify_eq.
      * split.
        -- intros (e & w' & Hr). congruence.
        -- intros [Hn|He]; rewrite Hk in *; by simplify_eq.
    + split.
      * intros k Hk Hne. rewrite Hk in Hc. destruct k; [done | discriminate].
      * split.
        -- intros _. destruct (FINNHUB_API_KEY config) as [[|a k]|];
             [by right | discriminate | by left].
        -- intros _. by eexists _, _.
Qed.

(** The empty string falls back to the configured key, or raises without
    one. *)
Lemma C9_empty_key_falls_back_witness :
  (exists c,
     AlphaVantage.__init__ Scenario.config Scenario.default_headers (Some "")
       Scenario.quiet = (Ok c, Scenario.quiet)
     /\ AlphaVantage.api_key c = "demo")
  /\
  (exists e w',
     Finnhub.__init__ Scenario.no_keys Scenario.default_headers (Some "")
       Scenario.quiet = (Raise e, w')).
Proof.
  split.
  - apply (proj1 (proj2 (proj1 (C9_empty_key_falls_back Scenario.config
                    Scenario.default_headers Scenario.quiet))));
      [reflexivity | discriminate].
  - apply (proj2 (proj2 (proj2 (C9_empty_key_falls_back Scenario.no_keys
                    Scenario.default_headers Scenario.quiet)))).
    by right.
Defined.

(** ** Public methods *)

(** C5: [get_daily_data("TSLA", adjusted, "compact")] issues exactly one GET,
    to the client's base URL, with the parameters [function] (the adjusted
    or the plain daily series, as [adjusted] says), [symbol = TSLA],
    [outputsize = compact] and [apikey] (the client's key); when the
    response has a 2xx status and a JSON object body with none of the
    vendor's error keys, that object is what the caller gets. *)
Theorem C5_get_daily_data (config : Config) (backend : request -> http_outcome)
    (s : state AlphaVantage.Client) (adjusted : bool)
    (m : gmap string pyval) (status : Z) :
  let function :=
    if adjusted then "TIME_SERIES_DAILY_ADJUSTED" else "TIME_SERIES_DAILY" in
  let r :=
    Request (AlphaVantage.base_url (self s))
      (Some {[ "function" := PyStr function;
               "symbol" := PyStr "TSLA";
               "outputsize" := PyStr "compact";
               "apikey" := PyStr (AlphaVantage.api_key (self s)) ]})
      (headers (AlphaVantage.session (self s))) (REQUEST_TIMEOUT config) in
  let run := AlphaVantage.get_daily_data config backend "TSLA" adjusted "compact" s in
  sent (wld run.2) = sent (wld s) ++ [r] /\
  (backend r = Respond {| status_code := status; resp_body := JsonBody (PyDict m) |} ->
   (200 <= status < 300)%Z ->
   m !! "Error Message" = None -> m !! "Note" = None ->
   m !! "Information" = None ->
   run.1 = Ok (PyDict m)).
Proof.
  intros function r run.
  assert (Hr : AlphaVantage.request_of config (self s)
                 (AlphaVantage.call_params
                    (AlphaVantage.Call_get_daily_data "TSLA" adjusted "compact"))
               = r).
  { (* the two dictionaries have the same four entries: inserting
       [apikey] last or listing it last gives the same map *)
    unfold AlphaVantage.request_of, r, function. do 2 f_equal. }
  subst run.
  change (AlphaVantage.get_daily_data config backend "TSLA" adjusted "compact" s)
    with (AlphaVantage.invoke config backend
            (AlphaVantage.Call_get_daily_data "TSLA" adjusted "compact") s).
  rewrite AlphaVantageFacts.alpha_invoke_run, Hr. simpl. split; [reflexivity|].
  intros Hb Hs H1 H2 H3.
  unfold AlphaVantage.answer. rewrite Hb, received_json by lia.
  by rewrite inspect_dict_clean.
Qed.

(** A daily series body comes back with all its entries. *)
Lemma C5_get_daily_data_witness :
  (AlphaVantage.get_daily_data Scenario.config
     (Scenario.always (Scenario.json 200 (PyDict Scenario.daily_body)))
     "TSLA" true "compact" (State Scenario.alpha Scenario.quiet)).1
  = Ok (PyDict Scenario.daily_body).
Proof.
  apply (proj2 (C5_get_daily_data Scenario.config
                  (Scenario.always (Scenario.json 200 (PyDict Scenario.daily_body)))
                  (State Scenario.alpha Scenario.quiet) true
                  Scenario.daily_body 200));
    [reflexivity | lia | | |]; vm_compute; reflexivity.
Defined.

(** C6: for either client, a public method called twice in a row with the
    same arguments, against a remote side that answers equal requests
    equally, returns the same value both times; and the client (its key,
    base URL and session headers) is after each call what it was before. *)
Theorem C6_repeated_call_same_result (config : Config)
    (backend : request -> http_outcome) :
  (forall (c : AlphaVantage.call) (s : state AlphaVantage.Client),
     let first := AlphaVantage.invoke config backend c s in
     let second := AlphaVantage.invoke config backend c first.2 in
     second.1 = first.1 /\ self first.2 = self s /\ self second.2 = self s) /\
  (forall (c : Finnhub.call) (s : state Finnhub.Client),
     let first := Finnhub.invoke config backend c s in
     let second := Finnhub.invoke config backend c first.2 in
     second.1 = first.1 /\ self first.2 = self s /\ self second.2 = self s).
Proof.
  split; intros c s first second; subst second first.
  - rewrite !AlphaVantageFacts.alpha_invoke_run. simpl. done.
  - rewrite !FinnhubFacts.finnhub_invoke_run. simpl. done.
Qed.

(** C7: for either client, every public method call sends exactly one GET,
    whatever comes back for it, and its outcome is the same for every value
    of [MAX_RETRIES]. *)
Theorem C7_one_request_no_retry (config : Config)
    (backend : request -> http_outcome) :
  (forall (c : AlphaVantage.call) (s : state AlphaVantage.Client),
     (exists r,
        sent (wld (AlphaVantage.invoke config backend c s).2) =
          sent (wld s) ++ [r]) /\
     (forall n,
        AlphaVantage.invoke (set_MAX_RETRIES n config) backend c s =
          AlphaVantage.invoke config backend c s)) /\
  (forall (c : Finnhub.call) (s : state Finnhub.Client),
     (exists r,
        sent (wld (Finnhub.invoke config backend c s).2) = sent (wld s) ++ [r]) /\
     (forall n,
        Finnhub.invoke (set_MAX_RETRIES n config) backend c s =
          Finnhub.invoke config backend c s)).
Proof.
  split; intros c s; split.
  - rewrite AlphaVantageFacts.alpha_invoke_run. simpl. by eexists.
  - intros n. by rewrite !AlphaVantageFacts.alpha_invoke_run.
  - rewrite FinnhubFacts.finnhub_invoke_run. simpl. by eexists.
  - intros n. by rewrite !FinnhubFacts.finnhub_invoke_run.
Qed.

(** ** The model at work *)

(** [get_quote] hands a quote body back as it is, after one GET. *)
Example get_quote_returns_body :
  let run :=
    AlphaVantage.get_quote Scenario.config
      (Scenario.always (Scenario.json 200 (PyDict Scenario.quote_body)))
      "IBM" (State Scenario.alpha Scenario.quiet) in
  run.1 = Ok (PyDict Scenario.quote_body)
  /\ length (sent (wld run.2)) = 1
  /\ stdout (wld run.2) = [].
Proof. vm_compute. done. Qed.

(** Finnhub's [{"error": "rate limit"}] gives [None] and one printed line. *)
Example finnhub_rate_limit_is_none :
  let run :=
    Finnhub.get_quote Scenario.config
      (Scenario.always
         (Scenario.json 200 (PyDict {[ "error" := PyStr "rate limit" ]})))
      "AAPL" (State Scenario.finn Scenario.quiet) in
  run.1 = Ok PyNone
  /\ stdout (wld run.2) = [LineVal "API Error: " (PyStr "rate limit")].
Proof. vm_compute. done. Qed.

(** * Further properties *)

(** ** What [_make_request] touches *)

(** X1: Alpha Vantage's [_make_request] changes nothing on the heap but the
    [apikey] entry of the dictionary it was given: no dictionary is created
    or dropped, every other dictionary is as before, and every other entry
    of the caller's dictionary is as before. *)
Theorem X1_alpha_request_frame (config : Config)
    (backend : request -> http_outcome) (s : state AlphaVantage.Client)
    (p : loc) (d : gmap string pyval) :
  heap (wld s) !! p = Some d ->
  length (heap (wld (AlphaVantage._make_request config backend p s).2))
    = length (heap (wld s))
  /\ (forall q : loc, q <> p ->
        heap (wld (AlphaVantage._make_request config backend p s).2) !! q
          = heap (wld s) !! q)
  /\ (exists d',
        heap (wld (AlphaVantage._make_request config backend p s).2) !! p = Some d'
        /\ forall k : string, k <> "apikey" -> d' !! k = d !! k).
Proof.
  intros Hp.
  rewrite (AlphaVantageFacts.alpha_make_request_run _ _ _ _ d Hp). simpl.
  split; [by rewrite length_insert|]. split.
  - intros q Hq. by rewrite list_lookup_insert_ne.
  - eexists. split.
    + apply list_lookup_insert_eq. by eapply lookup_lt_Some.
    + intros k Hk. by rewrite lookup_insert_ne.
Qed.

(** Two dictionaries on the heap; the request is made with the second. *)
Lemma X1_alpha_request_frame_witness :
  heap (wld (AlphaVantage._make_request Scenario.config
               (Scenario.always (Scenario.json 200 (PyDict Scenario.quote_body))) 1
               (State Scenario.alpha
                  (World [Scenario.rate_limited; Scenario.quote_params] [] []))).2)
    !! 0 = Some Scenario.rate_limited.
Proof.
  destruct (X1_alpha_request_frame Scenario.config
              (Scenario.always (Scenario.json 200 (PyDict Scenario.quote_body)))
              (State Scenario.alpha
                 (World [Scenario.rate_limited; Scenario.quote_params] [] []))
              1 Scenario.quote_params eq_refl) as (_ & Hframe & _).
  apply (Hframe 0). discriminate.
Defined.

(** X2: Finnhub's [_make_request] leaves every dictionary as it is, and the
    one GET it sends carries the caller's parameters unchanged (the key is
    not added to them), to the base URL followed by a slash and the
    endpoint. *)
Theorem X2_finnhub_leaves_params (config : Config)
    (backend : request -> http_outcome) (s : state Finnhub.Client)
    (endpoint : string) (params : option loc)
    (ps : option (gmap string pyval)) :
  params_in (heap (wld s)) params = Some ps ->
  heap (wld (Finnhub._make_request config backend endpoint params s).2)
    = heap (wld s)
  /\ exists r,
       sent (wld (Finnhub._make_request config backend endpoint params s).2)
         = sent (wld s) ++ [r]
       /\ req_params r = ps
       /\ req_url r = (Finnhub.base_url (self s) ++ "/" ++ endpoint)%string.
Proof.
  intros Hps.
  rewrite (FinnhubFacts.finnhub_make_request_run _ _ _ _ _ ps Hps). simpl.
  split; [reflexivity|]. by eexists.
Qed.

(** A quote request: the dictionary is sent, and kept, as the caller made
    it. *)
Lemma X2_finnhub_leaves_params_witness :
  heap (wld (Finnhub._make_request Scenario.config
               (Scenario.always (Scenario.json 200 (PyDict Scenario.quote_body)))
               "quote" (Some 0)
               (State Scenario.finn
                  (Scenario.holding {[ "symbol" := PyStr "AAPL" ]}))).2)
  = [ {[ "symbol" := PyStr "AAPL" ]} ].
Proof.
  apply (X2_finnhub_leaves_params Scenario.config _
           (State Scenario.finn (Scenario.holding {[ "symbol" := PyStr "AAPL" ]}))
           "quote" (Some 0) (Some {[ "symbol" := PyStr "AAPL" ]})).
  reflexivity.
Defined.

(** X3: the GET that Alpha Vantage's [_make_request] sends goes to the
    client's base URL with the configured timeout and carries the client's
    key under [apikey], whatever the caller had put there, and every other
    parameter as the caller gave it. *)
Theorem X3_alpha_request_carries_key (config : Config)
    (backend : request -> http_outcome) (s : state AlphaVantage.Client)
    (p : loc) (d : gmap string pyval) :
  heap (wld s) !! p = Some d ->
  exists r ps,
    sent (wld (AlphaVantage._make_request config backend p s).2)
      = sent (wld s) ++ [r]
    /\ req_url r = AlphaVantage.base_url (self s)
    /\ req_timeout r = REQUEST_TIMEOUT config
    /\ req_headers r = headers (AlphaVantage.session (self s))
    /\ req_params r = Some ps
    /\ ps !! "apikey" = Some (PyStr (AlphaVantage.api_key (self s)))
    /\ forall k : string, k <> "apikey" -> ps !! k = d !! k.
Proof.
  intros Hp.
  rewrite (AlphaVantageFacts.alpha_make_request_run _ _ _ _ d Hp). simpl.
  eexists _, _. repeat split.
  - apply lookup_insert_eq.
  - intros k Hk. by rewrite lookup_insert_ne.
Qed.

(** The caller's own [apikey] entry does not reach the wire. *)
Lemma X3_alpha_request_carries_key_witness :
  exists r ps,
    sent (wld (AlphaVantage._make_request Scenario.config
                 (Scenario.always (Scenario.json 200 (PyDict Scenario.quote_body))) 0
                 (State Scenario.alpha
                    (Scenario.holding
                       {[ "function" := PyStr "GLOBAL_QUOTE";
                          "apikey" := PyStr "other" ]}))).2) = [] ++ [r]
    /\ req_params r = Some ps
    /\ ps !! "apikey" = Some (PyStr "demo").
Proof.
  destruct (X3_alpha_request_carries_key Scenario.config
              (Scenario.always (Scenario.json 200 (PyDict Scenario.quote_body)))
              (State Scenario.alpha
                 (Scenario.holding
                    {[ "function" := PyStr "GLOBAL_QUOTE";
                       "apikey" := PyStr "other" ]}))
              0 {[ "function" := PyStr "GLOBAL_QUOTE"; "apikey" := PyStr "other" ]}
              eq_refl) as (r & ps & Hsent & _ & _ & _ & Hps & Hkey & _).
  by exists r, ps.
Defined.

(** ** From construction to the wire *)

Lemma alpha_init_fields (config : Config) (default_headers : gmap string string)
    (api_key : option string) (w w' : world) (c : AlphaVantage.Client) :
  AlphaVantage.__init__ config default_headers api_key w = (Ok c, w') ->
  AlphaVantage.base_url c = ALPHA_VANTAGE_BASE_URL config
  /\ AlphaVantage.session c =
       headers_update {[ "User-Agent" := "AlphaVantage-Python-Client/1.0" ]}
         (new_session default_headers).
Proof.
  unfold AlphaVantage.__init__, get_alpha_vantage_key.
  destruct api_key as [[|a k]|]; simpl;
    destruct (ALPHA_VANTAGE_API_KEY config) as [[|a' k']|]; simpl;
    unfold bind, ret, raise, print; simpl; intros H; by simplify_eq.
Qed.

Lemma finnhub_init_fields (config : Config) (default_headers : gmap string string)
    (api_key : option string) (w w' : world) (c : Finnhub.Client) :
  Finnhub.__init__ config default_headers api_key w = (Ok c, w') ->
  Finnhub.base_url c = FINNHUB_BASE_URL config
  /\ Finnhub.session c =
       headers_update
         {[ "X-Finnhub-Token" := Finnhub.api_key c;
            "User-Agent" := "Finnhub-Python-Client/1.0" ]}
         (new_session default_headers).
Proof.
  unfold Finnhub.__init__, get_finnhub_key.
  destruct api_key as [[|a k]|]; simpl;
    destruct (FINNHUB_API_KEY config) as [[|a' k']|]; simpl;
    unfold bind, ret, raise, print; simpl; intros H; by simplify_eq.
Qed.

(** X4: every GET a public method sends for a Finnhub client that
    [__init__] built goes to the configured base URL followed by the
    method's endpoint, with the configured timeout; its headers hold the
    client's key as [X-Finnhub-Token] and the client's [User-Agent], and
    otherwise what a new session starts with; its query parameters are the
    method's own, with no key among them. *)
Theorem X4_finnhub_request_of_built_client (config : Config)
    (default_headers : gmap string string) (backend : request -> http_outcome)
    (api_key : option string) (w0 w1 w : world) (c : Finnhub.Client)
    (call : Finnhub.call) :
  Finnhub.__init__ config default_headers api_key w0 = (Ok c, w1) ->
  exists r,
    sent (wld (Finnhub.invoke config backend call (State c w)).2) = sent w ++ [r]
    /\ req_url r =
         (FINNHUB_BASE_URL config ++ "/" ++ Finnhub.call_endpoint call)%string
    /\ req_timeout r = REQUEST_TIMEOUT config
    /\ req_headers r !! "X-Finnhub-Token" = Some (Finnhub.api_key c)
    /\ req_headers r !! "User-Agent" = Some "Finnhub-Python-Client/1.0"
    /\ (forall h : string, h <> "X-Finnhub-Token" -> h <> "User-Agent" ->
        req_headers r !! h = default_headers !! h)
    /\ req_params r = Some (Finnhub.call_params call).
Proof.
  intros Hinit.
  destruct (finnhub_init_fields _ _ _ _ _ _ Hinit) as [Hurl Hsess].
  rewrite FinnhubFacts.finnhub_invoke_run. simpl.
  eexists. split; [reflexivity|]. simpl. rewrite Hurl, Hsess. simpl.
  repeat split.
  - apply lookup_union_Some_l. apply lookup_insert_eq.
  - apply lookup_union_Some_l.
    rewrite lookup_insert_ne by done. apply lookup_singleton_eq.
  - intros h H1 H2. apply lookup_union_r.
    rewrite lookup_insert_ne by done. by rewrite lookup_singleton_ne.
Qed.

(** The client built from the configured key sends it as the token. *)
Lemma X4_finnhub_request_of_built_client_witness :
  exists r,
    sent (wld (Finnhub.invoke Scenario.config
                 (Scenario.always (Scenario.json 200 (PyList [])))
                 (Finnhub.Call_get_market_news "general" 0)
                 (State Scenario.finn Scenario.quiet)).2) = [] ++ [r]
    /\ req_url r = "https://finnhub.io/api/v1/news"
    /\ req_headers r !! "X-Finnhub-Token" = Some "sandbox".
Proof.
  destruct (X4_finnhub_request_of_built_client Scenario.config
              Scenario.default_headers
              (Scenario.always (Scenario.json 200 (PyList [])))
              None Scenario.quiet Scenario.quiet Scenario.quiet Scenario.finn
              (Finnhub.Call_get_market_news "general" 0) eq_refl)
    as (r & Hsent & Hurl & _ & Htoken & _).
  by exists r.
Defined.

(** X5: every GET a public method sends for an Alpha Vantage client that
    [__init__] built goes to the configured base URL with the configured
    timeout; its headers are those a new session starts with, except for the
    client's own [User-Agent]; its query parameters are the method's own
    plus the client's key under [apikey]. *)
Theorem X5_alpha_request_of_built_client (config : Config)
    (default_headers : gmap string string) (backend : request -> http_outcome)
    (api_key : option string) (w0 w1 w : world) (c : AlphaVantage.Client)
    (call : AlphaVantage.call) :
  AlphaVantage.__init__ config default_headers api_key w0 = (Ok c, w1) ->
  exists r,
    sent (wld (AlphaVantage.invoke config backend call (State c w)).2)
      = sent w ++ [r]
    /\ req_url r = ALPHA_VANTAGE_BASE_URL config
    /\ req_timeout r = REQUEST_TIMEOUT config
    /\ req_headers r !! "User-Agent" = Some "AlphaVantage-Python-Client/1.0"
    /\ (forall h : string, h <> "User-Agent" ->
        req_headers r !! h = default_headers !! h)
    /\ req_params r =
         Some (<["apikey" := PyStr (AlphaVantage.api_key c)]>
                 (AlphaVantage.call_params call)).
Proof.
  intros Hinit.
  destruct (alpha_init_fields _ _ _ _ _ _ Hinit) as [Hurl Hsess].
  rewrite AlphaVantageFacts.alpha_invoke_run. simpl.
  eexists. split; [reflexivity|]. simpl. rewrite Hurl, Hsess. simpl.
  repeat split.
  - apply lookup_union_Some_l. apply lookup_singleton_eq.
  - intros h Hh. apply lookup_union_r. by rewrite lookup_singleton_ne.
Qed.

(** The client built from the configured key announces itself. *)
Lemma X5_alpha_request_of_built_client_witness :
  exists r,
    sent (wld (AlphaVantage.invoke Scenario.config
                 (Scenario.always (Scenario.json 200 (PyDict Scenario.quote_body)))
                 (AlphaVantage.Call_get_quote "IBM")
                 (State Scenario.alpha Scenario.quiet)).2) = [] ++ [r]
    /\ req_headers r !! "User-Agent" = Some "AlphaVantage-Python-Client/1.0"
    /\ req_headers r !! "Accept" = Some "*/*".
Proof.
  destruct (X5_alpha_request_of_built_client Scenario.config
              Scenario.default_headers
              (Scenario.always (Scenario.json 200 (PyDict Scenario.quote_body)))
              None Scenario.quiet Scenario.quiet Scenario.quiet Scenario.alpha
              (AlphaVantage.Call_get_quote "IBM") eq_refl)
    as (r & Hsent & _ & _ & Hua & Hrest & _).
  exists r. split; [exact Hsent|]. split; [exact Hua|].
  rewrite Hrest by discriminate. reflexivity.
Defined.

(** X6: a non-empty [api_key] argument is the key of the client, for either
    client and whatever the configuration holds; the configuration is not
    asked, so nothing is printed. *)
Theorem X6_explicit_key_wins (config : Config)
    (default_headers : gmap string string) (k : string) (w : world) :
  k <> "" ->
  (exists c,
     AlphaVantage.__init__ config default_headers (Some k) w = (Ok c, w)
     /\ AlphaVantage.api_key c = k)
  /\ (exists c,
        Finnhub.__init__ config default_headers (Some k) w = (Ok c, w)
        /\ Finnhub.api_key c = k).
Proof.
  intros Hk. destruct k as [|a k]; [done|]. split; by eexists.
Qed.

(** With no key configured, an explicit key still builds both clients. *)
Lemma X6_explicit_key_wins_witness :
  (exists c,
     AlphaVantage.__init__ Scenario.no_keys Scenario.default_headers
       (Some "mine") Scenario.quiet = (Ok c, Scenario.quiet)
     /\ AlphaVantage.api_key c = "mine")
  /\ (exists c,
        Finnhub.__init__ Scenario.no_keys Scenario.default_headers
          (Some "mine") Scenario.quiet = (Ok c, Scenario.quiet)
        /\ Finnhub.api_key c = "mine").
Proof.
  apply (X6_explicit_key_wins Scenario.no_keys Scenario.default_headers "mine"
           Scenario.quiet).
  discriminate.
Defined.

(** X7: [get_alpha_vantage_key] and [get_finnhub_key] never raise and never
    return the empty string: a configured non-empty key is returned with
    nothing printed; an absent or empty one gives [None] after a two-line
    notice. *)
Theorem X7_key_getters (config : Config) (w : world) :
  (exists o w',
     get_alpha_vantage_key config w = (Ok o, w')
     /\ heap w' = heap w /\ sent w' = sent w
     /\ match o with
        | Some k => k <> "" /\ ALPHA_VANTAGE_API_KEY config = Some k /\ w' = w
        | None =>
            (ALPHA_VANTAGE_API_KEY config = None
             \/ ALPHA_VANTAGE_API_KEY config = Some "")
            /\ stdout w' =
                 stdout w ++
                 [Line "❌ Alpha Vantage API key not configured!";
                  Line "💡 Run 'python setup_env.py' to configure your API keys"]
        end)
  /\ (exists o w',
        get_finnhub_key config w = (Ok o, w')
        /\ heap w' = heap w /\ sent w' = sent w
        /\ match o with
           | Some k => k <> "" /\ FINNHUB_API_KEY config = Some k /\ w' = w
           | None =>
               (FINNHUB_API_KEY config = None \/ FINNHUB_API_KEY config = Some "")
               /\ stdout w' =
                    stdout w ++
                    [Line "❌ Finnhub API key not configured!";
                     Line "💡 Run 'python setup_env.py' to configure your API keys"]
           end).
Proof.
  unfold get_alpha_vantage_key, get_finnhub_key. split.
  - destruct (ALPHA_VANTAGE_API_KEY config) as [[|a k]|]; simpl.
    + eexists None, _. unfold bind, print, ret. simpl.
      repeat split; [by right | by rewrite <- app_assoc].
    + by eexists (Some _), _.
    + eexists None, _. unfold bind, print, ret. simpl.
      repeat split; [by left | by rewrite <- app_assoc].
  - destruct (FINNHUB_API_KEY config) as [[|a k]|]; simpl.
    + eexists None, _. unfold bind, print, ret. simpl.
      repeat split; [by right | by rewrite <- app_assoc].
    + by eexists (Some _), _.
    + eexists None, _. unfold bind, print, ret. simpl.
      repeat split; [by left | by rewrite <- app_assoc].
Qed.

(** ** What is printed, and bodies that are not objects *)

(** X8: for a 2xx response with a JSON object body, Alpha Vantage's
    [_make_request] prints at most one line: the value under
    [Error Message] if that key is present, else the value under [Note],
    else the value under [Information]; nothing when none is present. *)
Theorem X8_first_vendor_key_is_reported (config : Config)
    (backend : request -> http_outcome) (s : state AlphaVantage.Client)
    (p : loc) (d m : gmap string pyval) (status : Z) :
  heap (wld s) !! p = Some d ->
  backend (AlphaVantage.request_of config (self s) d) =
    Respond {| status_code := status; resp_body := JsonBody (PyDict m) |} ->
  (200 <= status < 300)%Z ->
  stdout (wld (AlphaVantage._make_request config backend p s).2) =
    stdout (wld s) ++
    match m !! "Error Message", m !! "Note", m !! "Information" with
    | Some v, _, _ => [LineVal "API Error: " v]
    | None, Some v, _ => [LineVal "API Note: " v]
    | None, None, Some v => [LineVal "API Info: " v]
    | None, None, None => []
    end.
Proof.
  intros Hp Hb Hs.
  rewrite (AlphaVantageFacts.alpha_make_request_run _ _ _ _ d Hp). simpl.
  unfold AlphaVantage.answer. rewrite Hb, received_json by lia.
  unfold AlphaVantage.inspect, AlphaVantage.vendor_key.
  rewrite !py_in_dict. unfold py_getitem.
  destruct (m !! "Error Message") as [v1|]; [reflexivity|].
  destruct (m !! "Note") as [v2|]; [reflexivity|].
  destruct (m !! "Information") as [v3|]; reflexivity.
Qed.

(** A body with both a note and an error message: the error message is the
    line printed. *)
Lemma X8_first_vendor_key_is_reported_witness :
  stdout (wld (AlphaVantage._make_request Scenario.config
                 (Scenario.always
                    (Scenario.json 200
                       (PyDict {[ "Note" := PyStr "slow down";
                                  "Error Message" := PyStr "Invalid API call." ]})))
                 0 (State Scenario.alpha (Scenario.holding Scenario.quote_params))).2)
  = [LineVal "API Error: " (PyStr "Invalid API call.")].
Proof.
  etrans.
  - apply (X8_first_vendor_key_is_reported Scenario.config _
             (State Scenario.alpha (Scenario.holding Scenario.quote_params)) 0
             Scenario.quote_params
             {[ "Note" := PyStr "slow down";
                "Error Message" := PyStr "Invalid API call." ]} 200);
      [reflexivity | reflexivity | lia].
  - vm_compute. reflexivity.
Defined.

Lemma existsb_str_In (k : string) (l : list pyval) :
  existsb (fun x => match x with PyStr s => String.eqb k s | _ => false end) l
    = true
  <-> In (PyStr k) l.
Proof.
  rewrite existsb_exists. split.
  - intros (x & Hx & Hk). destruct x; try discriminate.
    apply String.eqb_eq in Hk. by subst.
  - intros H. exists (PyStr k). split; [done|]. apply String.eqb_refl.
Qed.

(** X9: for a 2xx response whose body parses to a string or to an array,
    Alpha Vantage's [_make_request] hands the value back when it mentions
    none of the vendor's error keys, and returns [None] when it mentions
    one: a string mentions a key that occurs in it, an array mentions a key
    that is one of its elements. *)
Theorem X9_string_and_array_bodies (config : Config)
    (backend : request -> http_outcome) (s : state AlphaVantage.Client)
    (p : loc) (d : gmap string pyval) (status : Z) (data : pyval) :
  heap (wld s) !! p = Some d ->
  backend (AlphaVantage.request_of config (self s) d) =
    Respond {| status_code := status; resp_body := JsonBody data |} ->
  (200 <= status < 300)%Z ->
  (forall t : string, data = PyStr t ->
     (AlphaVantage._make_request config backend p s).1 =
       Ok (if is_substring "Error Message" t || is_substring "Note" t
              || is_substring "Information" t
           then PyNone else PyStr t))
  /\ (forall l : list pyval, data = PyList l ->
        (In (PyStr "Error Message") l \/ In (PyStr "Note") l
           \/ In (PyStr "Information") l ->
         (AlphaVantage._make_request config backend p s).1 = Ok PyNone)
        /\ (~ In (PyStr "Error Message") l -> ~ In (PyStr "Note") l ->
            ~ In (PyStr "Information") l ->
            (AlphaVantage._make_request config backend p s).1 = Ok (PyList l))).
Proof.
  intros Hp Hb Hs.
  rewrite (AlphaVantageFacts.alpha_make_request_run _ _ _ _ d Hp). simpl.
  unfold AlphaVantage.answer. rewrite Hb, received_json by lia.
  unfold AlphaVantage.inspect, AlphaVantage.vendor_key.
  split.
  - intros t ->. simpl.
    destruct (is_substring "Error Message" t); [reflexivity|].
    destruct (is_substring "Note" t); [reflexivity|].
    destruct (is_substring "Information" t); reflexivity.
  - intros l ->. simpl.
    pose proof (existsb_str_In "Error Message" l) as H1.
    pose proof (existsb_str_In "Note" l) as H2.
    pose proof (existsb_str_In "Information" l) as H3.
    destruct (existsb _ l) eqn:E1 in H1 |- *.
    { split; [reflexivity|]. intros N1 _ _. destruct N1. by apply H1. }
    destruct (existsb _ l) eqn:E2 in H2 |- *.
    { split; [reflexivity|]. intros _ N2 _. destruct N2. by apply H2. }
    destruct (existsb _ l) eqn:E3 in H3 |- *.
    { split; [reflexivity|]. intros _ _ N3. destruct N3. by apply H3. }
    split; [|reflexivity].
    intros [H|[H|H]]; [apply H1 in H | apply H2 in H | apply H3 in H];
      discriminate.
Qed.

(** A string body that talks about a note is lost; an array of symbols is
    handed back. *)
Lemma X9_string_and_array_bodies_witness :
  (AlphaVantage._make_request Scenario.config
     (Scenario.always (Scenario.json 200 (PyStr "See the Notes section")))
     0 (State Scenario.alpha (Scenario.holding Scenario.quote_params))).1
    = Ok PyNone
  /\
  (AlphaVantage._make_request Scenario.config
     (Scenario.always (Scenario.json 200 (PyList [PyStr "IBM"; PyStr "TSLA"])))
     0 (State Scenario.alpha (Scenario.holding Scenario.quote_params))).1
    = Ok (PyList [PyStr "IBM"; PyStr "TSLA"]).
Proof.
  split.
  - apply (proj1 (X9_string_and_array_bodies Scenario.config _
                    (State Scenario.alpha (Scenario.holding Scenario.quote_params))
                    0 Scenario.quote_params 200 (PyStr "See the Notes section")
                    eq_refl eq_refl ltac:(lia)) "See the Notes section" eq_refl).
  - apply (proj2 (X9_string_and_array_bodies Scenario.config _
                    (State Scenario.alpha (Scenario.holding Scenario.quote_params))
                    0 Scenario.quote_params 200
                    (PyList [PyStr "IBM"; PyStr "TSLA"])
                    eq_refl eq_refl ltac:(lia)) [PyStr "IBM"; PyStr "TSLA"] eq_refl);
      simpl; intros [H|[H|[]]]; discriminate H.
Defined.

(** X10: when the body of a response that passed the status check is not
    JSON, both clients return [None] and print one line, whose prefix is
    decided by the order of the [except] clauses: the decode error of the
    [requests] library is itself a request exception and is reported as a
    request error; the standard decode error is reported as a JSON decode
    error. *)
Theorem X10_decode_error_report (config : Config)
    (backend : request -> http_outcome) (status : Z) (by_requests : bool)
    (msg : string) :
  (status < 400 \/ 600 <= status)%Z ->
  (forall (s : state AlphaVantage.Client) (p : loc) (d : gmap string pyval),
     heap (wld s) !! p = Some d ->
     backend (AlphaVantage.request_of config (self s) d) =
       Respond {| status_code := status; resp_body := NotJson by_requests msg |} ->
     AlphaVantage._make_request config backend p s =
       (Ok PyNone,
        State (self s)
          (World (<[p := <["apikey" := PyStr (AlphaVantage.api_key (self s))]> d]>
                    (heap (wld s)))
             (stdout (wld s) ++
              [if by_requests
               then LineExn "Request error: " (Exn RequestsJSONDecodeError msg)
               else LineExn "JSON decode error: " (Exn JSONDecodeError msg)])
             (sent (wld s) ++ [AlphaVantage.request_of config (self s) d]))))
  /\ (forall (s : state Finnhub.Client) (endpoint : string) (params : option loc)
        (ps : option (gmap string pyval)),
        params_in (heap (wld s)) params = Some ps ->
        backend (Finnhub.request_of config (self s) endpoint ps) =
          Respond {| status_code := status; resp_body := NotJson by_requests msg |} ->
        Finnhub._make_request config backend endpoint params s =
          (Ok PyNone,
           State (self s)
             (World (heap (wld s))
                (stdout (wld s) ++
                 [if by_requests
                  then LineExn "Request error: " (Exn RequestsJSONDecodeError msg)
                  else LineExn "JSON decode error: " (Exn JSONDecodeError msg)])
                (sent (wld s) ++ [Finnhub.request_of config (self s) endpoint ps])))).
Proof.
  intros Hs.
  assert (Hrec : received
            (Respond {| status_code := status;
                        resp_body := NotJson by_requests msg |})
          = Raise (Exn (if by_requests then RequestsJSONDecodeError
                        else JSONDecodeError) msg)).
  { unfold received. simpl.
    destruct (400 <=? status)%Z eqn:E1, (status <? 500)%Z eqn:E2,
      (500 <=? status)%Z eqn:E3, (status <? 600)%Z eqn:E4; simpl;
      try lia; by destruct by_requests. }
  split.
  - intros s p d Hp Hb.
    rewrite (AlphaVantageFacts.alpha_make_request_run _ _ _ _ d Hp). simpl.
    unfold AlphaVantage.answer. rewrite Hb, Hrec. by destruct by_requests.
  - intros s endpoint params ps Hps Hb.
    rewrite (FinnhubFacts.finnhub_make_request_run _ _ _ _ _ ps Hps). simpl.
    unfold Finnhub.answer. rewrite Hb, Hrec. by destruct by_requests.
Qed.

(** An HTML page with status 200, refused by the library's own decoder. *)
Lemma X10_decode_error_report_witness :
  stdout (wld (Finnhub._make_request Scenario.config
                 (Scenario.always
                    (Respond {| status_code := 200;
                                resp_body := NotJson true "Expecting value" |}))
                 "quote" None (State Scenario.finn Scenario.quiet)).2)
  = [LineExn "Request error: " (Exn RequestsJSONDecodeError "Expecting value")].
Proof.
  rewrite (proj2 (X10_decode_error_report Scenario.config
                    (Scenario.always
                       (Respond {| status_code := 200;
                                   resp_body := NotJson true "Expecting value" |}))
                    200 true "Expecting value" ltac:(lia))
             (State Scenario.finn Scenario.quiet) "quote" None None
             eq_refl eq_refl).
  reflexivity.
Defined.

(** ** One client, many calls *)

Lemma alpha_invoke_value (config : Config) (backend : request -> http_outcome)
    (c : AlphaVantage.call) (s1 s2 : state AlphaVantage.Client) :
  self s1 = self s2 ->
  (AlphaVantage.invoke config backend c s1).1
    = (AlphaVantage.invoke config backend c s2).1.
Proof. intros H. rewrite !AlphaVantageFacts.alpha_invoke_run. simpl. by rewrite H. Qed.

Lemma finnhub_invoke_value (config : Config) (backend : request -> http_outcome)
    (c : Finnhub.call) (s1 s2 : state Finnhub.Client) :
  self s1 = self s2 ->
  (Finnhub.invoke config backend c s1).1 = (Finnhub.invoke config backend c s2).1.
Proof. intros H. rewrite !FinnhubFacts.finnhub_invoke_run. simpl. by rewrite H. Qed.

(** X11: any number of public method calls made one after the other on the
    same client never raise; each returns what it would return as the first
    call; together they send as many GETs as there are calls; and the client
    is afterwards what it was before. *)
Theorem X11_client_is_reusable (config : Config)
    (backend : request -> http_outcome) :
  (forall (cs : list AlphaVantage.call) (s : state AlphaVantage.Client),
     exists vs s',
       alpha_invoke_all config backend cs s = (Ok vs, s')
       /\ Forall2 (fun c v => (AlphaVantage.invoke config backend c s).1 = Ok v)
            cs vs
       /\ length (sent (wld s')) = length (sent (wld s)) + length cs
       /\ self s' = self s)
  /\ (forall (cs : list Finnhub.call) (s : state Finnhub.Client),
        exists vs s',
          finnhub_invoke_all config backend cs s = (Ok vs, s')
          /\ Forall2 (fun c v => (Finnhub.invoke config backend c s).1 = Ok v)
               cs vs
          /\ length (sent (wld s')) = length (sent (wld s)) + length cs
          /\ self s' = self s).
Proof.
  split.
  - induction cs as [|c cs IH]; intros s.
    + exists [], s. simpl. repeat split; [constructor | lia].
    + simpl. unfold bind at 1.
      destruct (AlphaVantage.invoke config backend c s) as [r s1] eqn:E.
      pose proof (AlphaVantageFacts.alpha_invoke_run config backend c s) as Hrun.
      rewrite E in Hrun. simpl in Hrun. injection Hrun as -> ->.
      unfold bind at 1.
      match goal with |- context [alpha_invoke_all _ _ cs ?s1] =>
        destruct (IH s1) as (vs & s' & Hall & Hvs & Hlen & Hself) end.
      rewrite Hall. simpl.
      eexists _, s'. split; [reflexivity|]. repeat split.
      * constructor; [by rewrite E|].
        eapply Forall2_impl; [exact Hvs|]. intros c' v' <-.
        by apply alpha_invoke_value.
      * rewrite Hlen. simpl. rewrite length_app. simpl. lia.
      * by rewrite Hself.
  - induction cs as [|c cs IH]; intros s.
    + exists [], s. simpl. repeat split; [constructor | lia].
    + simpl. unfold bind at 1.
      destruct (Finnhub.invoke config backend c s) as [r s1] eqn:E.
      pose proof (FinnhubFacts.finnhub_invoke_run config backend c s) as Hrun.
      rewrite E in Hrun. simpl in Hrun. injection Hrun as -> ->.
      unfold bind at 1.
      match goal with |- context [finnhub_invoke_all _ _ cs ?s1] =>
        destruct (IH s1) as (vs & s' & Hall & Hvs & Hlen & Hself) end.
      rewrite Hall. simpl.
      eexists _, s'. split; [reflexivity|]. repeat split.
      * constructor; [by rewrite E|].
        eapply Forall2_impl; [exact Hvs|]. intros c' v' <-.
        by apply finnhub_invoke_value.
      * rewrite Hlen. simpl. rewrite length_app. simpl. lia.
      * by rewrite Hself.
Qed.

(** ** Configuration *)

(** X12: [is_configured] answers [True] exactly when both clients can be
    built from the configuration alone. *)
Theorem X12_configured_iff_constructible (config : Config)
    (default_headers : gmap string string) (w : world) :
  is_configured config = true
  <-> (exists c w', AlphaVantage.__init__ config default_headers None w = (Ok c, w'))
      /\ (exists c w', Finnhub.__init__ config default_headers None w = (Ok c, w')).
Proof.
  unfold is_configured. rewrite andb_true_iff.
  destruct (alpha_init_run config default_headers None w)
    as [(ka & Hsa & Hna & ca & Hoka & _)|(_ & Hca & wa & Hra & _)];
  destruct (finnhub_init_run config default_headers None w)
    as [(kf & Hsf & Hnf & cf & Hokf & _)|(_ & Hcf & wf & Hrf & _)].
  - destruct Hsa as [[? ?]|[_ Ha]]; [discriminate|].
    destruct Hsf as [[? ?]|[_ Hf]]; [discriminate|].
    split; [intros _; split; by eexists _, _|].
    intros _. rewrite Ha, Hf. split; by apply str_truthy_spec; eexists.
  - split; [intros [_ H]; congruence|].
    intros [_ (c & w' & H)]. congruence.
  - split; [intros [H _]; congruence|].
    intros [(c & w' & H) _]. congruence.
  - split; [intros [H _]; congruence|].
    intros [(c & w' & H) _]. congruence.
Qed.

Lemma bind_print {A} (l : printed) (k : M world A) (w : world) :
  (print l ;;; k) w = k (World (heap w) (stdout w ++ [l]) (sent w)).
Proof. reflexivity. Qed.

Lemma bind_ret {A B} (a : A) (k : M world B) (w : world) :
  (ret a ;;; k) w = k w.
Proof. reflexivity. Qed.

Lemma print_run (l : printed) (w : world) :
  print l w = (Ok tt, World (heap w) (stdout w ++ [l]) (sent w)).
Proof. reflexivity. Qed.

Lemma print_each_run (ls : list printed) (w : world) :
  print_each ls w = (Ok tt, World (heap w) (stdout w ++ ls) (sent w)).
Proof.
  revert w. induction ls as [|l ls IH]; intros w; simpl.
  - unfold ret. rewrite app_nil_r. by destruct w.
  - rewrite bind_print, IH. simpl. by rewrite <- app_assoc.
Qed.

Lemma bind_print_each {A} (ls : list printed) (k : M world A) (w : world) :
  (print_each ls ;;; k) w = k (World (heap w) (stdout w ++ ls) (sent w)).
Proof. unfold bind at 1. by rewrite print_each_run. Qed.

(** One [print] of a sequence, with the record projections it leaves
    behind reduced at once. *)
Ltac step_print :=
  first [ rewrite bind_print | rewrite bind_print_each | rewrite print_run ];
  cbn [heap stdout sent].

Lemma display_config_status_run (config : Config) (w : world) :
  exists out,
    display_config_status config w
      = (Ok tt, World (heap w) (stdout w ++ out) (sent w)).
Proof.
  unfold display_config_status. do 5 step_print.
  destruct (negb (is_configured config)).
  - repeat step_print. rewrite <- !app_assoc. by eexists.
  - unfold ret. rewrite <- !app_assoc. by eexists.
Qed.


(** X14: [check_api_configuration] never raises and sends nothing; when it
    answers [True], constructing both clients from the configuration
    afterwards succeeds, and when it answers [False], constructing at least
    one of them raises. *)
Theorem X14_check_api_configuration_gates (config : Config)
    (default_headers : gmap string string) (w : world) :
  exists b w',
    check_api_configuration config w = (Ok b, w')
    /\ heap w' = heap w /\ sent w' = sent w
    /\ b = is_configured config
    /\ (b = true ->
        (exists c, AlphaVantage.__init__ config default_headers None w' = (Ok c, w'))
        /\ (exists c, Finnhub.__init__ config default_headers None w' = (Ok c, w')))
    /\ (b = false ->
        (exists e w'',
           AlphaVantage.__init__ config default_headers None w' = (Raise e, w''))
        \/ (exists e w'',
              Finnhub.__init__ config default_headers None w' = (Raise e, w''))).
Proof.
  assert (Hgate : forall w1 : world,
    (is_configured config = true ->
     (exists c, AlphaVantage.__init__ config default_headers None w1 = (Ok c, w1))
     /\ (exists c, Finnhub.__init__ config default_headers None w1 = (Ok c, w1)))
    /\ (is_configured config = false ->
        (exists e w'',
           AlphaVantage.__init__ config default_headers None w1 = (Raise e, w''))
        \/ (exists e w'',
              Finnhub.__init__ config default_headers None w1 = (Raise e, w'')))).
  { intros w1. unfold is_configured.
    destruct (alpha_init_run config default_headers None w1)
      as [(ka & Hsa & Hna & ca & Hoka & _)|(_ & Hca & wa & Hra & _)];
    destruct (finnhub_init_run config default_headers None w1)
      as [(kf & Hsf & Hnf & cf & Hokf & _)|(_ & Hcf & wf & Hrf & _)].
    - split; [intros _; split; by eexists|].
      destruct Hsa as [[? ?]|[_ Ha]]; [discriminate|].
      destruct Hsf as [[? ?]|[_ Hf]]; [discriminate|].
      assert (str_truthy (Some ka) = true)
        by (apply str_truthy_spec; by eexists).
      assert (str_truthy (Some kf) = true)
        by (apply str_truthy_spec; by eexists).
      rewrite Ha, Hf. intros Hcfg.
      apply andb_false_iff in Hcfg as [Hcfg|Hcfg]; congruence.
    - rewrite Hcf, andb_false_r. split; [discriminate|].
      intros _. right. by eexists _, _.
    - rewrite Hca. split; [discriminate|].
      intros _. left. by eexists _, _.
    - rewrite Hca. split; [discriminate|].
      intros _. left. by eexists _, _. }
  unfold check_api_configuration. do 2 step_print.
  destruct (is_configured config) eqn:E; cbn [negb].
  - unfold bind at 1.
    match goal with |- context [display_config_status config ?w1] =>
      destruct (display_config_status_run config w1) as [out ->] end.
    step_print. unfold ret.
    eexists _, _. split; [reflexivity|]. cbn [heap stdout sent].
    repeat split; try done.
    + by apply Hgate.
    + by apply Hgate.
  - repeat step_print. unfold ret.
    eexists _, _. split; [reflexivity|]. cbn [heap stdout sent].
    repeat split; try done.
    intros _. by apply Hgate.
Qed.

(** ** The parameters a method sends *)

(** What an [Optional[str]] argument contributes to the parameters: its
    value when it is a non-empty string, nothing otherwise. *)
Lemma lookup_given_eq (k : string) (arg : option string)
    (d : gmap string pyval) :
  d !! k = None ->
  given k arg d !! k = if str_truthy arg then PyStr <$> arg else None.
Proof.
  intros Hd. unfold given. destruct arg as [a|]; [|done].
  destruct (str_truthy (Some a)); [|done]. by rewrite lookup_insert_eq.
Qed.

Lemma lookup_given_ne (k k' : string) (arg : option string)
    (d : gmap string pyval) :
  k <> k' -> given k arg d !! k' = d !! k'.
Proof.
  intros Hk. unfold given. destruct arg as [a|]; [|done].
  destruct (str_truthy (Some a)); [|done]. by rewrite lookup_insert_ne.
Qed.

Ltac lookup_params :=
  repeat first
    [ rewrite lookup_insert_eq
    | rewrite lookup_singleton_eq
    | rewrite lookup_given_eq
    | rewrite lookup_insert_ne by done
    | rewrite lookup_given_ne by done
    | rewrite lookup_singleton_ne by done ];
  try done.

(** X15: [get_news_sentiment] sends [function = NEWS_SENTIMENT], [sort], the
    limit as a decimal string, and the client's key; each of [tickers],
    [topics], [time_from] and [time_to] is sent when given as a non-empty
    string and left out when absent or empty; nothing else is sent. *)
Theorem X15_news_sentiment_parameters (config : Config)
    (backend : request -> http_outcome) (s : state AlphaVantage.Client)
    (tickers topics time_from time_to : option string) (sort : string)
    (limit : Z) :
  exists r ps,
    sent (wld (AlphaVantage.get_news_sentiment config backend tickers topics
                 time_from time_to sort limit s).2) = sent (wld s) ++ [r]
    /\ req_params r = Some ps
    /\ ps !! "function" = Some (PyStr "NEWS_SENTIMENT")
    /\ ps !! "sort" = Some (PyStr sort)
    /\ ps !! "limit" = Some (PyStr (str_int limit))
    /\ ps !! "apikey" = Some (PyStr (AlphaVantage.api_key (self s)))
    /\ ps !! "tickers" = (if str_truthy tickers then PyStr <$> tickers else None)
    /\ ps !! "topics" = (if str_truthy topics then PyStr <$> topics else None)
    /\ ps !! "time_from" =
         (if str_truthy time_from then PyStr <$> time_from else None)
    /\ ps !! "time_to" = (if str_truthy time_to then PyStr <$> time_to else None)
    /\ forall k : string,
         ~ In k ["function"; "sort"; "limit"; "apikey"; "tickers"; "topics";
                 "time_from"; "time_to"]%string ->
         ps !! k = None.
Proof.
  change (AlphaVantage.get_news_sentiment config backend tickers topics
            time_from time_to sort limit s)
    with (AlphaVantage.invoke config backend
            (AlphaVantage.Call_get_news_sentiment tickers topics time_from
               time_to sort limit) s).
  rewrite AlphaVantageFacts.alpha_invoke_run. simpl.
  eexists _, _. split; [reflexivity|]. split; [reflexivity|].
  repeat split; try (by lookup_params).
  intros k Hk. simpl in Hk.
  assert (k <> "function" /\ k <> "sort" /\ k <> "limit" /\ k <> "apikey"
          /\ k <> "tickers" /\ k <> "topics" /\ k <> "time_from"
          /\ k <> "time_to") as (?&?&?&?&?&?&?&?) by (repeat split; intros ->; tauto).
  by lookup_params.
Qed.

(** X16: [get_intraday_data] sends [function = TIME_SERIES_INTRADAY], the
    symbol, the interval and the output size as given, the two flags as the
    lower-case words [true] and [false], and the client's key; [month] is
    sent when given as a non-empty string and left out when absent or
    empty; nothing else is sent. *)
Theorem X16_intraday_parameters (config : Config)
    (backend : request -> http_outcome) (s : state AlphaVantage.Client)
    (symbol interval : string) (adjusted extended_hours : bool)
    (month : option string) (outputsize : string) :
  exists r ps,
    sent (wld (AlphaVantage.get_intraday_data config backend symbol interval
                 adjusted extended_hours month outputsize s).2)
      = sent (wld s) ++ [r]
    /\ req_params r = Some ps
    /\ ps !! "function" = Some (PyStr "TIME_SERIES_INTRADAY")
    /\ ps !! "symbol" = Some (PyStr symbol)
    /\ ps !! "interval" = Some (PyStr interval)
    /\ ps !! "adjusted" = Some (PyStr (if adjusted then "true" else "false"))
    /\ ps !! "extended_hours"
         = Some (PyStr (if extended_hours then "true" else "false"))
    /\ ps !! "outputsize" = Some (PyStr outputsize)
    /\ ps !! "apikey" = Some (PyStr (AlphaVantage.api_key (self s)))
    /\ ps !! "month" = (if str_truthy month then PyStr <$> month else None)
    /\ forall k : string,
         ~ In k ["function"; "symbol"; "interval"; "adjusted"; "extended_hours";
                 "outputsize"; "apikey"; "month"]%string ->
         ps !! k = None.
Proof.
  change (AlphaVantage.get_intraday_data config backend symbol interval
            adjusted extended_hours month outputsize s)
    with (AlphaVantage.invoke config backend
            (AlphaVantage.Call_get_intraday_data symbol interval adjusted
               extended_hours month outputsize) s).
  rewrite AlphaVantageFacts.alpha_invoke_run. simpl.
  eexists _, _. split; [reflexivity|]. split; [reflexivity|].
  repeat split; try (by lookup_params).
  intros k Hk. simpl in Hk.
  assert (k <> "function" /\ k <> "symbol" /\ k <> "interval" /\ k <> "adjusted"
          /\ k <> "extended_hours" /\ k <> "outputsize" /\ k <> "apikey"
          /\ k <> "month") as (?&?&?&?&?&?&?&?)
    by (repeat split; intros ->; tauto).
  by lookup_params.
Qed.

(** X17: [get_insider_transactions] asks the endpoint
    [stock/insider-transactions] with the symbol; [from] and [to] are sent
    when the dates are given as non-empty strings and left out when absent
    or empty; nothing else is sent, and the dictionary the method built is
    the one it sent. *)
Theorem X17_insider_transactions_parameters (config : Config)
    (backend : request -> http_outcome) (s : state Finnhub.Client)
    (symbol : string) (from_date to_date : option string) :
  exists r ps,
    sent (wld (Finnhub.get_insider_transactions config backend symbol
                 from_date to_date s).2) = sent (wld s) ++ [r]
    /\ req_url r
         = (Finnhub.base_url (self s) ++ "/stock/insider-transactions")%string
    /\ req_params r = Some ps
    /\ ps !! "symbol" = Some (PyStr symbol)
    /\ ps !! "from" = (if str_truthy from_date then PyStr <$> from_date else None)
    /\ ps !! "to" = (if str_truthy to_date then PyStr <$> to_date else None)
    /\ (forall k : string,
          ~ In k ["symbol"; "from"; "to"]%string -> ps !! k = None)
    /\ heap (wld (Finnhub.get_insider_transactions config backend symbol
                    from_date to_date s).2) = heap (wld s) ++ [ps].
Proof.
  change (Finnhub.get_insider_transactions config backend symbol from_date
            to_date s)
    with (Finnhub.invoke config backend
            (Finnhub.Call_get_insider_transactions symbol from_date to_date) s).
  rewrite FinnhubFacts.finnhub_invoke_run. simpl.
  eexists _, _. split; [reflexivity|]. split; [reflexivity|].
  split; [reflexivity|].
  repeat split; try (by lookup_params).
  intros k Hk. simpl in Hk.
  assert (k <> "symbol" /\ k <> "from" /\ k <> "to") as (?&?&?)
    by (repeat split; intros ->; tauto).
  by lookup_params.
Qed.

(** X18: every public method of the Alpha Vantage client sends its GET to
    the client's one base URL, with a non-empty [function] name and the
    client's key among the parameters. *)
Theorem X18_alpha_requests_name_a_function (config : Config)
    (backend : request -> http_outcome) (call : AlphaVantage.call)
    (s : state AlphaVantage.Client) :
  exists r ps f,
    sent (wld (AlphaVantage.invoke config backend call s).2) = sent (wld s) ++ [r]
    /\ req_url r = AlphaVantage.base_url (self s)
    /\ req_params r = Some ps
    /\ ps !! "function" = Some (PyStr f) /\ f <> ""
    /\ ps !! "apikey" = Some (PyStr (AlphaVantage.api_key (self s))).
Proof.
  rewrite AlphaVantageFacts.alpha_invoke_run. simpl.
  destruct call as [? ? ? ? ? ?|? [|] ?|? [|]|? [|]|?|?|?|?|?|?|?| |? ? ? ? ? ?];
    simpl; eexists _, _, _;
    (split; [reflexivity|]); (split; [reflexivity|]); (split; [reflexivity|]);
    (split; [by lookup_params|]); (split; [discriminate|]); by lookup_params.
Qed.
